(** * Gestor_facturas: the CFDI extractor and the path registry

    A shallow embedding of [utils/mod_rutas.py] and [utils/mod_xml.py].

    - Python strings are [string] (sequences of bytes, UTF-8 for the few
      non-ASCII characters of the diagnostics).
    - An [xml.etree.ElementTree.Element] is a tag in Clark notation
      ([{uri}local]), a dict of attributes ([gmap string string]) and the
      list of its children in document order.
    - A [float] is a binary64 value of the Standard Library's [spec_float].
    - The filesystem is a tree of named entries, kept in listing order; a
      regular file holds what [ET.parse] makes of its bytes.
    - Code that prints, raises or touches the filesystem runs in the monad
      [M]: a state monad over [world] whose results are either a value or a
      raised exception.
    - [datetime.strptime] and [float()] are library functions: the code is
      embedded over them as section variables. *)

From Stdlib Require Import ZArith String Ascii List Lia Bool.
From Stdlib Require Import SpecFloat DecimalString.
From stdpp Require Import gmap strings list fin_maps option.

Set Warnings "-register-all".
Open Scope string_scope.
Open Scope Z_scope.

(** ** Python values *)

(** Truthiness of an [Optional[str]]: [None] and the empty string are falsy. *)
Definition truthy_str (o : option string) : bool :=
  match o with
  | Some s => negb (String.eqb s "")
  | None => false
  end.

(** [a or b] on [Optional[str]] operands. *)
Definition py_or (a b : option string) : option string :=
  if truthy_str a then a else b.

(** What an f-string prints for an [Optional[str]]. *)
Definition fstr (o : option string) : string := default "None" o.

(** [s.startswith(p)] *)
Definition startswith (s p : string) : bool := String.prefix p s.

(** [datetime.datetime], naive (no timezone). *)
Record datetime : Type := mkDatetime {
  year : Z; month : Z; day : Z;
  hour : Z; minute : Z; second : Z; microsecond : Z
}.

(** Truthiness of a [float]: zero of either sign is falsy, everything else
    (infinities and NaN included) is truthy. *)
Definition truthy_float (x : spec_float) : bool :=
  match x with
  | S754_zero _ => false
  | _ => true
  end.

(** ** Element trees *)

Inductive Element : Type :=
  Elem (tag : string) (attrib : gmap string string) (children : list Element).

Definition tag (e : Element) : string := let 'Elem t _ _ := e in t.
Definition attrib (e : Element) : gmap string string := let 'Elem _ a _ := e in a.
Definition children (e : Element) : list Element := let 'Elem _ _ c := e in c.

(** [e.get(key)] and [e.get(key, default)] *)
Definition get (e : Element) (key : string) : option string := attrib e !! key.
Definition get_default (e : Element) (key dflt : string) : string :=
  default dflt (attrib e !! key).

(** Clark notation of a namespace-qualified name. *)
Definition clark (uri local : string) : string := "{" ++ uri ++ "}" ++ local.

Definition has_tag (t : string) (e : Element) : bool := String.eqb (tag e) t.

(** All descendants of [e] (not [e] itself) in document order. *)
Fixpoint descendants (e : Element) : list Element :=
  match e with
  | Elem _ _ cs => flat_map (fun c => c :: descendants c) cs
  end.

(** ** The record of [mod_xml.py] *)

Record CFDIData : Type := mkCFDIData {
  folio : option string;
  serie : option string;
  fecha_emision : option datetime;
  total : option spec_float;
  subtotal : option spec_float;
  moneda : option string;
  emisor_rfc : option string;
  emisor_nombre : option string;
  emisor_regimen : option string;
  receptor_rfc : option string;
  receptor_nombre : option string;
  uuid : option string;
  fecha_timbrado : option datetime;
  version : option string;
  archivo_origen : option string
}.

(** [CFDIData()]: every field defaults to [None]. *)
Definition CFDIData_new : CFDIData :=
  mkCFDIData None None None None None None None None None None None None None None None.

(** Attribute assignments [cfdi.campo = v]. *)
Definition set_folio v (c : CFDIData) := mkCFDIData v (serie c) (fecha_emision c) (total c) (subtotal c) (moneda c) (emisor_rfc c) (emisor_nombre c) (emisor_regimen c) (receptor_rfc c) (receptor_nombre c) (uuid c) (fecha_timbrado c) (version c) (archivo_origen c).
Definition set_serie v (c : CFDIData) := mkCFDIData (folio c) v (fecha_emision c) (total c) (subtotal c) (moneda c) (emisor_rfc c) (emisor_nombre c) (emisor_regimen c) (receptor_rfc c) (receptor_nombre c) (uuid c) (fecha_timbrado c) (version c) (archivo_origen c).
Definition set_fecha_emision v (c : CFDIData) := mkCFDIData (folio c) (serie c) v (total c) (subtotal c) (moneda c) (emisor_rfc c) (emisor_nombre c) (emisor_regimen c) (receptor_rfc c) (receptor_nombre c) (uuid c) (fecha_timbrado c) (version c) (archivo_origen c).
Definition set_total v (c : CFDIData) := mkCFDIData (folio c) (serie c) (fecha_emision c) v (subtotal c) (moneda c) (emisor_rfc c) (emisor_nombre c) (emisor_regimen c) (receptor_rfc c) (receptor_nombre c) (uuid c) (fecha_timbrado c) (version c) (archivo_origen c).
Definition set_subtotal v (c : CFDIData) := mkCFDIData (folio c) (serie c) (fecha_emision c) (total c) v (moneda c) (emisor_rfc c) (emisor_nombre c) (emisor_regimen c) (receptor_rfc c) (receptor_nombre c) (uuid c) (fecha_timbrado c) (version c) (archivo_origen c).
Definition set_moneda v (c : CFDIData) := mkCFDIData (folio c) (serie c) (fecha_emision c) (total c) (subtotal c) v (emisor_rfc c) (emisor_nombre c) (emisor_regimen c) (receptor_rfc c) (receptor_nombre c) (uuid c) (fecha_timbrado c) (version c) (archivo_origen c).
Definition set_emisor_rfc v (c : CFDIData) := mkCFDIData (folio c) (serie c) (fecha_emision c) (total c) (subtotal c) (moneda c) v (emisor_nombre c) (emisor_regimen c) (receptor_rfc c) (receptor_nombre c) (uuid c) (fecha_timbrado c) (version c) (archivo_origen c).
Definition set_emisor_nombre v (c : CFDIData) := mkCFDIData (folio c) (serie c) (fecha_emision c) (total c) (subtotal c) (moneda c) (emisor_rfc c) v (emisor_regimen c) (receptor_rfc c) (receptor_nombre c) (uuid c) (fecha_timbrado c) (version c) (archivo_origen c).
Definition set_emisor_regimen v (c : CFDIData) := mkCFDIData (folio c) (serie c) (fecha_emision c) (total c) (subtotal c) (moneda c) (emisor_rfc c) (emisor_nombre c) v (receptor_rfc c) (receptor_nombre c) (uuid c) (fecha_timbrado c) (version c) (archivo_origen c).
Definition set_receptor_rfc v (c : CFDIData) := mkCFDIData (folio c) (serie c) (fecha_emision c) (total c) (subtotal c) (moneda c) (emisor_rfc c) (emisor_nombre c) (emisor_regimen c) v (receptor_nombre c) (uuid c) (fecha_timbrado c) (version c) (archivo_origen c).
Definition set_receptor_nombre v (c : CFDIData) := mkCFDIData (folio c) (serie c) (fecha_emision c) (total c) (subtotal c) (moneda c) (emisor_rfc c) (emisor_nombre c) (emisor_regimen c) (receptor_rfc c) v (uuid c) (fecha_timbrado c) (version c) (archivo_origen c).
Definition set_uuid v (c : CFDIData) := mkCFDIData (folio c) (serie c) (fecha_emision c) (total c) (subtotal c) (moneda c) (emisor_rfc c) (emisor_nombre c) (emisor_regimen c) (receptor_rfc c) (receptor_nombre c) v (fecha_timbrado c) (version c) (archivo_origen c).
Definition set_fecha_timbrado v (c : CFDIData) := mkCFDIData (folio c) (serie c) (fecha_emision c) (total c) (subtotal c) (moneda c) (emisor_rfc c) (emisor_nombre c) (emisor_regimen c) (receptor_rfc c) (receptor_nombre c) (uuid c) v (version c) (archivo_origen c).
Definition set_version v (c : CFDIData) := mkCFDIData (folio c) (serie c) (fecha_emision c) (total c) (subtotal c) (moneda c) (emisor_rfc c) (emisor_nombre c) (emisor_regimen c) (receptor_rfc c) (receptor_nombre c) (uuid c) (fecha_timbrado c) v (archivo_origen c).
Definition set_archivo_origen v (c : CFDIData) := mkCFDIData (folio c) (serie c) (fecha_emision c) (total c) (subtotal c) (moneda c) (emisor_rfc c) (emisor_nombre c) (emisor_regimen c) (receptor_rfc c) (receptor_nombre c) (uuid c) (fecha_timbrado c) (version c) v.

(** ** The filesystem *)

(** What [ET.parse] makes of a regular file: a parse error with the
    library's message, or the root of the document. *)
Inductive xml_content : Type :=
  | Malformed (msg : string)
  | WellFormed (root : Element).

(** A filesystem node. The entries of a directory are kept in the order in
    which the directory lists them. *)
Inductive node : Type :=
  | File (content : xml_content)
  | Dir (entries : list (string * node)).

(** A [pathlib.Path], absolute: its components below the filesystem root. *)
Definition Path : Type := list string.

Definition path_str (p : Path) : string :=
  match p with
  | [] => "/"
  | _ => String.concat "" (List.map (fun c => "/" ++ c) p)
  end.

(** [p.name] and [p.parent] *)
Definition path_name (p : Path) : string := List.last p "".
Definition path_parent (p : Path) : Path := List.removelast p.

Fixpoint lookup_entry (name : string) (es : list (string * node)) : option node :=
  match es with
  | [] => None
  | (n, x) :: es' => if String.eqb n name then Some x else lookup_entry name es'
  end.

Fixpoint replace_entry (name : string) (x : node) (es : list (string * node))
  : list (string * node) :=
  match es with
  | [] => []
  | (n, y) :: es' =>
      if String.eqb n name then (n, x) :: es' else (n, y) :: replace_entry name x es'
  end.

(** The node a path leads to, from the node [n]. *)
Fixpoint resolve (p : Path) (n : node) : option node :=
  match p with
  | [] => Some n
  | c :: p' =>
      match n with
      | File _ => None
      | Dir es =>
          match lookup_entry c es with
          | Some x => resolve p' x
          | None => None
          end
      end
  end.

Definition is_dir (o : option node) : bool :=
  match o with
  | Some (Dir _) => true
  | _ => false
  end.

(** A chain of fresh, empty directories [c1/c2/.../cn]. *)
Fixpoint fresh_dirs (p : Path) : node :=
  match p with
  | [] => Dir []
  | c :: p' => Dir [(c, fresh_dirs p')]
  end.

(** ** Exceptions and the monad of effects *)

Inductive exn_class : Type :=
  | FileNotFoundError | IsADirectoryError | NotADirectoryError | FileExistsError
  | ParseError | ValueError | SyntaxError.

(** An exception: its class and [str(e)]. Every class above derives from
    [Exception]. *)
Record exn : Type := mkExn { exn_cls : exn_class; exn_str : string }.

(** The state the code runs in: the filesystem, the lines printed so far
    and the calls made to [datetime.strptime] so far (string, format). *)
Record world : Type := mkWorld {
  fs : node;
  stdout : list string;
  strptime_calls : list (string * string)
}.

Inductive outcome (A : Type) : Type :=
  | Ok (a : A)
  | Raised (e : exn).
Arguments Ok {A} a.
Arguments Raised {A} e.

Definition M (A : Type) : Type := world -> outcome A * world.

Definition ret {A} (a : A) : M A := fun w => (Ok a, w).
Definition raise {A} (e : exn) : M A := fun w => (Raised e, w).
Definition bind {A B} (m : M A) (k : A -> M B) : M B :=
  fun w =>
    match m w with
    | (Ok a, w') => k a w'
    | (Raised e, w') => (Raised e, w')
    end.

(** [try: m  except Exception as e: h e] *)
Definition try_except {A} (m : M A) (h : exn -> M A) : M A :=
  fun w =>
    match m w with
    | (Ok a, w') => (Ok a, w')
    | (Raised e, w') => h e w'
    end.

Declare Scope py_scope.
Delimit Scope py_scope with py.
Notation "x <- m ;; k" := (bind m (fun x => k))
  (at level 100, m at next level, right associativity) : py_scope.
Notation "m ;;; k" := (bind m (fun _ => k))
  (at level 100, right associativity) : py_scope.
Open Scope py_scope.

(** [print(line)] *)
Definition print (line : string) : M unit :=
  fun w => (Ok tt, mkWorld (fs w) (stdout w ++ [line]) (strptime_calls w)).

(** [p.exists()] *)
Definition path_exists (p : Path) : M bool :=
  fun w => (Ok (bool_decide (is_Some (resolve p (fs w)))), w).

(** ** Formatting a float: [format(x, ',.2f')] *)

Definition digits_of_Z (z : Z) : string :=
  NilEmpty.string_of_uint (N.to_uint (Z.to_N z)).

(** Two digits, zero-padded (for a value below 100). *)
Definition pad2 (z : Z) : string :=
  if z <? 10 then "0" ++ digits_of_Z z else digits_of_Z z.

(** Inserts a comma after every third character of a reversed digit list;
    [k] counts the digits emitted since the last comma. *)
Fixpoint commas_rev (k : nat) (l : list ascii) : list ascii :=
  match l with
  | [] => []
  | c :: l' =>
      match k with
      | 3%nat => ","%char :: c :: commas_rev 1 l'
      | _ => c :: commas_rev (S k) l'
      end
  end.

(** The thousands separator of the [,] format option. *)
Definition group_thousands (digits : string) : string :=
  string_of_list_ascii
    (rev (commas_rev 0 (rev (list_ascii_of_string digits)))).

(** [num / den] rounded to the nearest integer, ties to even. *)
Definition round_half_even (num den : Z) : Z :=
  let q := num / den in
  let r := num mod den in
  if 2 * r <? den then q
  else if den <? 2 * r then q + 1
  else if Z.even q then q else q + 1.

(** The magnitude [m * 2^e] in hundredths, correctly rounded. *)
Definition cents (m : positive) (e : Z) : Z :=
  if 0 <=? e then Z.pos m * 2 ^ e * 100
  else round_half_even (Z.pos m * 100) (2 ^ (- e)).

Definition fixed2 (c : Z) : string :=
  group_thousands (digits_of_Z (c / 100)) ++ "." ++ pad2 (c mod 100).

Definition sign_str (s : bool) : string := if s then "-" else "".

(** [f"{x:,.2f}"] *)
Definition format_comma_2f (x : spec_float) : string :=
  match x with
  | S754_zero s => sign_str s ++ "0.00"
  | S754_infinity s => sign_str s ++ "inf"
  | S754_nan => "nan"
  | S754_finite s m e => sign_str s ++ fixed2 (cents m e)
  end.

(** [d.strftime('%d/%m/%Y')] *)
Definition strftime_dmY (d : datetime) : string :=
  pad2 (day d) ++ "/" ++ pad2 (month d) ++ "/" ++ digits_of_Z (year d).

(** ** Instances of the library functions, for the examples

    The embedded code takes [datetime.strptime] and [float()] as parameters.
    The two functions below instantiate them on concrete inputs. *)

Definition is_digit (c : ascii) : bool :=
  let n := nat_of_ascii c in ((48 <=? n) && (n <=? 57))%nat.

Definition digit_val (c : ascii) : Z := Z.of_nat (nat_of_ascii c) - 48.

(** ASCII characters matched by the regular expression [\s]. *)
Definition is_space (c : ascii) : bool :=
  let n := nat_of_ascii c in
  ((n =? 32) || ((9 <=? n) && (n <=? 13)) || ((28 <=? n) && (n <=? 31)))%nat.

(** Case-insensitive comparison of ASCII characters. *)
Definition lower (c : ascii) : ascii :=
  let n := nat_of_ascii c in
  if ((65 <=? n) && (n <=? 90))%nat then ascii_of_nat (n + 32) else c.
Definition ci_eqb (a b : ascii) : bool := Ascii.eqb (lower a) (lower b).

(** The directives of a [strptime] format. *)
Inductive directive : Type :=
  | DY | Dm | Dd | DH | DM | DS | Df
  | DSpaces
  | DLit (c : ascii).

(** Reads a format string; [None] stands for a directive this model does
    not know. A run of whitespace in the format is one [DSpaces]. *)
Fixpoint parse_format (f : list ascii) : option (list directive) :=
  match f with
  | [] => Some []
  | "%"%char :: c :: f' =>
      let d :=
        if Ascii.eqb c "Y" then Some DY else if Ascii.eqb c "m" then Some Dm
        else if Ascii.eqb c "d" then Some Dd else if Ascii.eqb c "H" then Some DH
        else if Ascii.eqb c "M" then Some DM else if Ascii.eqb c "S" then Some DS
        else if Ascii.eqb c "f" then Some Df else if Ascii.eqb c "%" then Some (DLit "%")
        else None in
      match d, parse_format f' with
      | Some d, Some ds => Some (d :: ds)
      | _, _ => None
      end
  | c :: f' =>
      match parse_format f' with
      | Some ds =>
          if is_space c then
            match ds with
            | DSpaces :: _ => Some ds
            | _ => Some (DSpaces :: ds)
            end
          else Some (DLit c :: ds)
      | None => None
      end
  end.

(** The two-digit and one-digit alternatives of a numeric directive, as
    the library's regular expressions have them. *)
Definition ok2 (d : directive) (a b : Z) : bool :=
  match d with
  | Dm => ((a =? 1) && (b <=? 2)) || ((a =? 0) && (1 <=? b))
  | Dd => ((a =? 3) && (b <=? 1)) || (a =? 1) || (a =? 2) || ((a =? 0) && (1 <=? b))
  | DH => ((a =? 2) && (b <=? 3)) || (a <=? 1)
  | DM => a <=? 5
  | DS => ((a =? 6) && (b <=? 1)) || (a <=? 5)
  | _ => false
  end.

Definition ok1 (d : directive) (a : Z) : bool :=
  match d with
  | Dm | Dd => 1 <=? a
  | DH | DM | DS => true
  | _ => false
  end.

(** Reads exactly [k] digits. *)
Fixpoint take_digits (k : nat) (acc : Z) (s : list ascii) : option (Z * list ascii) :=
  match k with
  | O => Some (acc, s)
  | S k' =>
      match s with
      | c :: s' => if is_digit c then take_digits k' (10 * acc + digit_val c) s' else None
      | [] => None
      end
  end.

(** The ways a numeric directive can match a prefix of [s], in the order
    in which the regular expression tries them: value and rest. *)
Definition candidates (d : directive) (s : list ascii) : list (Z * list ascii) :=
  match d with
  | DY => option_list (take_digits 4 0 s)
  | Df =>
      omap (fun k => match take_digits k 0 s with
                     | Some (v, r) => Some (v * 10 ^ Z.of_nat (6 - k), r)
                     | None => None
                     end) [6; 5; 4; 3; 2; 1]%nat
  | _ =>
      (match s with
       | a :: b :: r =>
           if is_digit a && is_digit b && ok2 d (digit_val a) (digit_val b)
           then [(10 * digit_val a + digit_val b, r)] else []
       | _ => []
       end) ++
      (match s with
       | a :: r => if is_digit a && ok1 d (digit_val a) then [(digit_val a, r)] else []
       | _ => []
       end) ++
      (match d, s with
       | Dd, " "%char :: b :: r =>
           if is_digit b && (1 <=? digit_val b) then [(digit_val b, r)] else []
       | _, _ => []
       end)
  end.

(** The rests of [s] after one or more whitespace characters, longest run
    first. *)
Fixpoint after_spaces (s : list ascii) : list (list ascii) :=
  match s with
  | c :: s' => if is_space c then after_spaces s' ++ [s'] else []
  | [] => []
  end.

Fixpoint first_some {A B} (f : A -> option B) (l : list A) : option B :=
  match l with
  | [] => None
  | x :: l' => match f x with Some y => Some y | None => first_some f l' end
  end.

Definition set_field (d : directive) (v : Z) (t : datetime) : datetime :=
  match d with
  | DY => mkDatetime v (month t) (day t) (hour t) (minute t) (second t) (microsecond t)
  | Dm => mkDatetime (year t) v (day t) (hour t) (minute t) (second t) (microsecond t)
  | Dd => mkDatetime (year t) (month t) v (hour t) (minute t) (second t) (microsecond t)
  | DH => mkDatetime (year t) (month t) (day t) v (minute t) (second t) (microsecond t)
  | DM => mkDatetime (year t) (month t) (day t) (hour t) v (second t) (microsecond t)
  | DS => mkDatetime (year t) (month t) (day t) (hour t) (minute t) v (microsecond t)
  | Df => mkDatetime (year t) (month t) (day t) (hour t) (minute t) (second t) v
  | _ => t
  end.

(** The first match of the directives against a prefix of [s], found by
    backtracking: the fields read and what is left of [s]. *)
Fixpoint match_directives (ds : list directive) (s : list ascii) (t : datetime)
  : option (datetime * list ascii) :=
  match ds with
  | [] => Some (t, s)
  | DLit c :: ds' =>
      match s with
      | a :: r => if ci_eqb a c then match_directives ds' r t else None
      | [] => None
      end
  | DSpaces :: ds' => first_some (fun r => match_directives ds' r t) (after_spaces s)
  | d :: ds' =>
      first_some (fun vr => match_directives ds' (snd vr) (set_field d (fst vr) t))
                 (candidates d s)
  end.

Definition is_leap (y : Z) : bool :=
  ((y mod 4 =? 0) && negb (y mod 100 =? 0)) || (y mod 400 =? 0).

Definition days_in_month (y m : Z) : Z :=
  if m =? 2 then (if is_leap y then 29 else 28)
  else if (m =? 4) || (m =? 6) || (m =? 9) || (m =? 11) then 30
  else 31.

(** What the [datetime] constructor accepts. *)
Definition valid_datetime (t : datetime) : bool :=
  (1 <=? year t) && (year t <=? 9999) && (1 <=? month t) && (month t <=? 12)
  && (1 <=? day t) && (day t <=? days_in_month (year t) (month t))
  && (0 <=? hour t) && (hour t <=? 23) && (0 <=? minute t) && (minute t <=? 59)
  && (0 <=? second t) && (second t <=? 59)
  && (0 <=? microsecond t) && (microsecond t <=? 999999).

(** [datetime.strptime(s, f)] on ASCII strings, for formats made of the
    directives [%Y %m %d %H %M %S %f], whitespace and literal characters:
    the format is matched as the library's regular expression matches it
    (case-insensitive literals, one or more whitespace characters for
    whitespace, the first match in backtracking order), the whole string
    must be consumed and the fields must make a valid [datetime]. [None]
    stands for [ValueError]. *)
Definition strptime_ascii (s f : string) : option datetime :=
  match parse_format (list_ascii_of_string f) with
  | Some ds =>
      match match_directives ds (list_ascii_of_string s) (mkDatetime 1900 1 1 0 0 0 0) with
      | Some (t, []) => if valid_datetime t then Some t else None
      | _ => None
      end
  | None => None
  end.

(** Reads a run of digits: its value, its length and the rest. *)
Fixpoint read_digits (s : list ascii) (acc : Z) (n : nat) : Z * nat * list ascii :=
  match s with
  | c :: s' => if is_digit c then read_digits s' (10 * acc + digit_val c) (S n) else (acc, n, s)
  | [] => (acc, n, s)
  end.

(** The binary64 value nearest to [(-1)^neg * num / 10^k]. *)
Definition binary64_of_decimal (neg : bool) (num : Z) (k : nat) : spec_float :=
  SFdiv 53 1024 (binary_normalize 53 1024 (if neg then - num else num) 0 neg)
                (binary_normalize 53 1024 (10 ^ Z.of_nat k) 0 false).

(** [float(s)] on plain decimal literals: an optional sign, digits and an
    optional fractional part ([12], [-3.50], [+0.25]). The value is the
    correctly rounded one for literals of at most 15 significant digits.
    Every other string is rejected here ([None] stands for [ValueError]);
    the library also reads exponents, [inf], [nan], underscores and
    surrounding whitespace. *)
Definition float_decimal (s : string) : option spec_float :=
  let cs := list_ascii_of_string s in
  let '(neg, cs) :=
    match cs with
    | "-"%char :: r => (true, r)
    | "+"%char :: r => (false, r)
    | _ => (false, cs)
    end in
  let '(ip, n, r) := read_digits cs 0 0 in
  match r with
  | [] => if (0 <? n)%nat then Some (binary64_of_decimal neg ip 0) else None
  | "."%char :: r' =>
      let '(v, k, r'') := read_digits r' ip 0 in
      match r'' with
      | [] => if (0 <? n + k)%nat then Some (binary64_of_decimal neg v k) else None
      | _ => None
      end
  | _ => None
  end.

(** ** Filesystem operations of [pathlib] and [ElementTree] *)

(** [s.endswith(suffix)] *)
Definition endswith (s suffix : string) : bool :=
  let n := String.length s in
  let k := String.length suffix in
  ((k <=? n)%nat && String.eqb (substring (n - k) k s) suffix).

(** [fnmatch(name, "*.xml")], case-sensitive. *)
Definition fnmatch_xml (name : string) : bool := endswith name ".xml".

(** [dir.glob("*.xml")]: the entries directly inside [dir] whose name
    matches, in listing order (regular files and directories alike);
    nothing when [dir] is not a directory. *)
Definition glob_xml (dir : Path) : M (list Path) :=
  fun w =>
    (Ok (match resolve dir (fs w) with
         | Some (Dir es) =>
             List.map (fun e => (dir ++ [fst e])%list)
                      (List.filter (fun e => fnmatch_xml (fst e)) es)
         | _ => []
         end), w).

(** [ET.parse(ruta).getroot()] *)
Definition ET_parse (ruta : Path) : M Element :=
  fun w =>
    match resolve ruta (fs w) with
    | None =>
        (Raised (mkExn FileNotFoundError
                   ("[Errno 2] No such file or directory: '" ++ path_str ruta ++ "'")), w)
    | Some (Dir _) =>
        (Raised (mkExn IsADirectoryError
                   ("[Errno 21] Is a directory: '" ++ path_str ruta ++ "'")), w)
    | Some (File (Malformed msg)) => (Raised (mkExn ParseError msg), w)
    | Some (File (WellFormed root)) => (Ok root, w)
    end.

(** The tree after [mkdir -p] of the path [p] below the node [n], or the
    class of the error: a regular file in the way of a directory. *)
Fixpoint mkdir_p (p : Path) (n : node) : exn_class + node :=
  match p, n with
  | [], Dir _ => inr n
  | [], File _ => inl FileExistsError
  | _ :: _, File _ => inl NotADirectoryError
  | c :: p', Dir es =>
      match lookup_entry c es with
      | Some x =>
          match mkdir_p p' x with
          | inr x' => inr (Dir (replace_entry c x' es))
          | inl err => inl err
          end
      | None => inr (Dir (es ++ [(c, fresh_dirs p')])%list)
      end
  end.

Definition os_error_str (c : exn_class) (p : Path) : string :=
  match c with
  | FileExistsError => "[Errno 17] File exists: '" ++ path_str p ++ "'"
  | _ => "[Errno 20] Not a directory: '" ++ path_str p ++ "'"
  end.

(** [p.mkdir(parents=True, exist_ok=True)] *)
Definition mkdir_parents_exist_ok (p : Path) : M unit :=
  fun w =>
    match mkdir_p p (fs w) with
    | inr n => (Ok tt, mkWorld n (stdout w) (strptime_calls w))
    | inl c => (Raised (mkExn c (os_error_str c p)), w)
    end.

(** [for x in l: body x] *)
Fixpoint for_each {A} (l : list A) (body : A -> M unit) : M unit :=
  match l with
  | [] => ret tt
  | x :: l' => body x ;;; for_each l' body
  end.

(** [e.find("prefix:local", namespaces)]: the first child with that
    qualified tag. *)
Definition find (e : Element) (prefix local : string) (namespaces : gmap string string)
  : M (option Element) :=
  match namespaces !! prefix with
  | Some uri => ret (List.find (has_tag (clark uri local)) (children e))
  | None => raise (mkExn SyntaxError ("prefix '" ++ prefix ++ "' not found in prefix map"))
  end.

(** [e.find(".//prefix:local", namespaces)]: the first descendant with
    that qualified tag, in document order. *)
Definition find_descendant (e : Element) (prefix local : string)
    (namespaces : gmap string string) : M (option Element) :=
  match namespaces !! prefix with
  | Some uri => ret (List.find (has_tag (clark uri local)) (descendants e))
  | None => raise (mkExn SyntaxError ("prefix '" ++ prefix ++ "' not found in prefix map"))
  end.

(** ** [mod_xml.py]: constants and the summary *)

Definition CFDI_NAMESPACES : gmap string string :=
  <["cfdi" := "http://www.sat.gob.mx/cfd/4"]>
  (<["cfdi3" := "http://www.sat.gob.mx/cfd/3"]>
  (<["tfd" := "http://www.sat.gob.mx/TimbreFiscalDigital"]>
  (<["xsi" := "http://www.w3.org/2001/XMLSchema-instance"]> ∅))).

Record CFDIParser : Type := { namespaces : gmap string string }.

(** [CFDIParser.__init__] *)
Definition CFDIParser_init : CFDIParser := {| namespaces := CFDI_NAMESPACES |}.

(** [CFDIParser._detectar_version] *)
Definition _detectar_version (root : Element) : string :=
  if startswith (tag root) "{http://www.sat.gob.mx/cfd/4}" then "4.0"
  else if startswith (tag root) "{http://www.sat.gob.mx/cfd/3}" then "3.3"
  else get_default root "Version" "3.3".

(** The value of the ['total'] entry of the summary. *)
Definition resumen_total (c : CFDIData) : option string :=
  match total c with
  | Some x =>
      if truthy_float x
      then Some ("$" ++ format_comma_2f x ++ " " ++ fstr (moneda c))
      else None
  | None => None
  end.

(** [obtener_resumen_cfdi] *)
Definition obtener_resumen_cfdi (cfdi_data : CFDIData) : gmap string (option string) :=
  <["folio_completo" :=
      if truthy_str (serie cfdi_data)
      then Some (fstr (serie cfdi_data) ++ "-" ++ fstr (folio cfdi_data))
      else folio cfdi_data]>
  (<["fecha_emision" := option_map strftime_dmY (fecha_emision cfdi_data)]>
  (<["emisor" := py_or (emisor_nombre cfdi_data) (emisor_rfc cfdi_data)]>
  (<["receptor" := py_or (receptor_nombre cfdi_data) (receptor_rfc cfdi_data)]>
  (<["total" := resumen_total cfdi_data]>
  (<["uuid" := uuid cfdi_data]>
  (<["archivo" := archivo_origen cfdi_data]> ∅)))))).

(** ** Notions used by the statements *)

(** The world [w] after printing the lines [out] and making the
    [strptime] calls [calls]. *)
Definition emit (w : world) (out : list string) (calls : list (string * string)) : world :=
  mkWorld (fs w) (stdout w ++ out) (strptime_calls w ++ calls).

(** The namespace URI of a tag in Clark notation [{uri}local]; [None] for
    a tag without namespace. *)
Fixpoint until_brace (s : string) : option string :=
  match s with
  | EmptyString => None
  | String c s' =>
      if Ascii.eqb c "}" then Some EmptyString
      else option_map (String c) (until_brace s')
  end.

Definition namespace_of (t : string) : option string :=
  match t with
  | String c s => if Ascii.eqb c "{" then until_brace s else None
  | EmptyString => None
  end.

Definition NS_CFDI4 : string := "http://www.sat.gob.mx/cfd/4".
Definition NS_CFDI3 : string := "http://www.sat.gob.mx/cfd/3".

(** The attribute names that version 3.3 reads under two spellings:
    lowercase-initial and PascalCase. *)
Definition case_pairs : list (string * string) :=
  [ ("folio", "Folio"); ("serie", "Serie"); ("total", "Total");
    ("subTotal", "SubTotal"); ("fecha", "Fecha");
    ("rfc", "Rfc"); ("nombre", "Nombre") ].

(** The same, with the currency attribute. *)
Definition case_pairs_moneda : list (string * string) :=
  (case_pairs ++ [("moneda", "Moneda")])%list.

(** Renames the attribute [pa] to [lo]. *)
Definition rename_attr (lo pa : string) (m : gmap string string) : gmap string string :=
  match m !! pa with
  | Some v => <[lo := v]> (delete pa m)
  | None => m
  end.

Definition lower_attrs (pairs : list (string * string)) (m : gmap string string)
  : gmap string string :=
  fold_right (fun p m => rename_attr (fst p) (snd p) m) m pairs.

(** The document with every PascalCase attribute of [pairs] renamed to its
    lowercase-initial spelling, in every element. *)
Fixpoint lower_doc (pairs : list (string * string)) (e : Element) : Element :=
  match e with
  | Elem t a cs => Elem t (lower_attrs pairs a) (List.map (lower_doc pairs) cs)
  end.

(** The names a list of pairs mentions. *)
Fixpoint names (pairs : list (string * string)) : list string :=
  match pairs with
  | [] => []
  | p :: ps => fst p :: snd p :: names ps
  end.

(** The listed attributes of the root, and those of the issuer and of the
    recipient. *)
Definition root_pairs : list (string * string) :=
  [ ("folio", "Folio"); ("serie", "Serie"); ("total", "Total");
    ("subTotal", "SubTotal"); ("fecha", "Fecha") ].

Definition party_pairs : list (string * string) :=
  [ ("rfc", "Rfc"); ("nombre", "Nombre") ].

(** No attribute of [pairs] is present under its lowercase-initial
    spelling. *)
Definition pascal_spelled (pairs : list (string * string)) (m : gmap string string) : bool :=
  forallb (fun p => bool_decide (m !! fst p = None)) pairs.

(** None of the attributes [keys] is present with an empty value. *)
Definition none_empty (keys : list string) (m : gmap string string) : bool :=
  forallb (fun k => bool_decide (m !! k <> Some "")) keys.

(** The document spells the attributes of [pairs] in PascalCase only, in
    every element. *)
Fixpoint pascal_only_doc (pairs : list (string * string)) (e : Element) : bool :=
  match e with
  | Elem _ a cs => pascal_spelled pairs a && forallb (pascal_only_doc pairs) cs
  end.

(** The first child of [e] with the qualified tag [{uri}local]. *)
Definition child (e : Element) (uri local : string) : option Element :=
  List.find (has_tag (clark uri local)) (children e).

(** An issuer or a recipient that spells its two attributes in PascalCase
    only, and has neither of them empty. *)
Definition party_ok (e : Element) : bool :=
  pascal_spelled party_pairs (attrib e) && none_empty ["Rfc"; "Nombre"] (attrib e).

(** What the equivalence of the two spellings asks of a document, where
    version 3.3 reads it: the root spells its five listed attributes in
    PascalCase only and its folio and series, which are copied as text, are
    not empty; the same for the rfc and nombre of the issuer and of the
    recipient that version 3.3 finds. *)
Definition v3_pascal_read (root : Element) : bool :=
  pascal_spelled root_pairs (attrib root)
  && none_empty ["Folio"; "Serie"] (attrib root)
  && from_option party_ok true (child root NS_CFDI3 "Emisor")
  && from_option party_ok true (child root NS_CFDI3 "Receptor").

(** The element with the attribute [k] set to [v]. *)
Definition with_attr (k v : string) (e : Element) : Element :=
  Elem (tag e) (<[k := v]> (attrib e)) (children e).


(** A computation that reads the filesystem at most: it leaves the
    filesystem as it found it, and its outcome depends on nothing else in
    the world. *)
Definition fs_reader {A} (m : M A) : Prop :=
  forall w1 w2, fs w1 = fs w2 ->
    fst (m w1) = fst (m w2) /\ fs (snd (m w1)) = fs w1.

(** A computation that never raises. *)
Definition never_raises {A} (m : M A) : Prop :=
  forall w, exists a w', m w = (Ok a, w').

(** Whatever a computation returns satisfies [Q]. *)
Definition returns {A} (m : M A) (Q : A -> Prop) : Prop :=
  forall w a w', m w = (Ok a, w') -> Q a.

(** The names directly inside the directory [dir] that match [*.xml], as
    paths, in listing order. *)
Definition xml_files (dir : Path) (n : node) : list Path :=
  match resolve dir n with
  | Some (Dir es) =>
      List.map (fun e => (dir ++ [fst e])%list)
               (List.filter (fun e => fnmatch_xml (fst e)) es)
  | _ => []
  end.






(** The tree [n'] is the tree [n] with, at most, new directories on the
    way to one of the [targets]: every regular file of [n] is in [n'] with
    its content, every directory of [n] is a directory of [n'], and a path
    of [n'] that is not in [n] is a directory leading to a target. *)
Definition grows_by (targets : list Path) (n n' : node) : Prop :=
  forall q,
    match resolve q n with
    | Some (File c) => resolve q n' = Some (File c)
    | Some (Dir _) => is_dir (resolve q n') = true
    | None =>
        resolve q n' = None \/
        (is_dir (resolve q n') = true /\ exists t, t ∈ targets /\ q `prefix_of` t)
    end.

(** *** Sample documents and worlds *)

Definition NS_TFD : string := "http://www.sat.gob.mx/TimbreFiscalDigital".

Definition timbre_ejemplo : Element :=
  Elem (clark NS_TFD "TimbreFiscalDigital")
       (<["UUID" := "6F9619FF-8B86-D011-B42D-00CF4FC964FF"]>
        (<["FechaTimbrado" := "2024-01-15T10:31:07"]> ∅)) [].

(** A version 4.0 invoice whose [Total] is not a number. *)
Definition doc_v4_total_abc : Element :=
  Elem (clark NS_CFDI4 "Comprobante")
       (<["Folio" := "12"]> (<["Serie" := "A"]> (<["Total" := "abc"]>
        (<["SubTotal" := "100.00"]> (<["Fecha" := "2024-01-15T10:30:00"]> ∅)))))
       [ Elem (clark NS_CFDI4 "Emisor")
              (<["Rfc" := "AAA010101AAA"]> (<["Nombre" := "ACME"]> ∅)) [];
         Elem (clark NS_CFDI4 "Complemento") ∅ [timbre_ejemplo] ].

(** A version 3.3 invoice with PascalCase attribute names. *)
Definition doc_v3_pascal : Element :=
  Elem (clark NS_CFDI3 "Comprobante")
       (<["Folio" := "7"]> (<["Serie" := "B"]> (<["Total" := "116.00"]>
        (<["SubTotal" := "100.00"]> (<["Fecha" := "2019-03-02 08:00:00"]> ∅)))))
       [ Elem (clark NS_CFDI3 "Emisor")
              (<["Rfc" := "AAA010101AAA"]> (<["Nombre" := "ACME"]> ∅)) [];
         Elem (clark NS_CFDI3 "Receptor") (<["Rfc" := "XAXX010101000"]> ∅) [];
         Elem (clark NS_CFDI3 "Complemento") ∅ [timbre_ejemplo] ].

(** A version 3.3 invoice that declares its currency. *)
Definition doc_v3_usd : Element :=
  Elem (clark NS_CFDI3 "Comprobante") (<["Moneda" := "USD"]> ∅) [].

(** A version 3.3 invoice with an empty folio. *)
Definition doc_v3_folio_vacio : Element :=
  Elem (clark NS_CFDI3 "Comprobante") (<["Folio" := ""]> ∅) [].

(** Version 3.3 invoices with an empty series, with an issuer that has an
    empty rfc, and with a recipient that has an empty name. *)
Definition doc_v3_serie_vacia : Element :=
  Elem (clark NS_CFDI3 "Comprobante") (<["Serie" := ""]> ∅) [].

Definition doc_v3_rfc_vacio : Element :=
  Elem (clark NS_CFDI3 "Comprobante") ∅
       [ Elem (clark NS_CFDI3 "Emisor") (<["Rfc" := ""]> ∅) [] ].

Definition doc_v3_nombre_vacio : Element :=
  Elem (clark NS_CFDI3 "Comprobante") ∅
       [ Elem (clark NS_CFDI3 "Receptor") (<["Nombre" := ""]> ∅) [] ].

(** A version 3.3 invoice with an empty total and an empty date, and with
    a line item that has an empty series and a name under both spellings. *)
Definition doc_v3_vacios : Element :=
  Elem (clark NS_CFDI3 "Comprobante")
       (<["Folio" := "7"]> (<["Total" := ""]> (<["Fecha" := ""]> ∅)))
       [ Elem (clark NS_CFDI3 "Emisor") (<["Rfc" := "AAA010101AAA"]> ∅) [];
         Elem (clark NS_CFDI3 "Concepto")
              (<["Serie" := ""]> (<["nombre" := "a"]> (<["Nombre" := "b"]> ∅))) [] ].

(** A document without namespace and without [Version] attribute. *)
Definition doc_sin_namespace : Element :=
  Elem "Comprobante" (<["Folio" := "1"]> ∅) [].

(** A document without namespace that declares version 2.0. *)
Definition doc_version_2 : Element :=
  Elem "Comprobante" (<["Version" := "2.0"]> ∅) [].

Definition FILE_ejemplo : Path := ["app"; "utils"; "mod_rutas.py"].
Definition pendientes_ejemplo : Path := ["app"; "data"; "facturas_pendientes"].

(** A pending directory with five entries. *)
Definition fs_ejemplo : node :=
  Dir [("app",
        Dir [("data",
              Dir [("facturas_pendientes",
                    Dir [ ("a.xml", File (WellFormed doc_v4_total_abc));
                          ("notas.txt", File (Malformed "syntax error: line 1, column 0"));
                          ("roto.xml", File (Malformed "no element found: line 1, column 0"));
                          ("v2.xml", File (WellFormed doc_version_2));
                          ("z.xml", File (WellFormed doc_sin_namespace)) ])])])].

Definition w_ejemplo : world := mkWorld fs_ejemplo [] [].

(** A filesystem without the data directory. *)
Definition w_vacio : world := mkWorld (Dir [("app", Dir [])]) [] [].

(** The same filesystem with the two invoice directories. *)
Definition w_inicializado : world :=
  mkWorld (Dir [("app",
                 Dir [("data",
                       Dir [ ("facturas_procesadas", Dir []);
                             ("facturas_pendientes", Dir []) ])])]) [] [].

(** A record whose total is [0.0]. *)
Definition cfdi_total_cero : CFDIData :=
  set_total (Some (S754_zero false)) (set_moneda (Some "MXN") CFDIData_new).

(** *** Further notions *)

(** The stamp of a document: the first element beneath the root, in
    document order, with the qualified tag [TimbreFiscalDigital]. *)
Definition timbre (root : Element) : option Element :=
  List.find (has_tag (clark NS_TFD "TimbreFiscalDigital")) (descendants root).

(** The attributes of the root that version 4.0 reads. *)
Definition v4_root_attrs : list string :=
  ["Folio"; "Serie"; "Total"; "SubTotal"; "Moneda"; "Fecha"].

(** A computation whose outcome does not depend on the world at all. *)
Definition world_blind {A} (m : M A) : Prop :=
  forall w1 w2, fst (m w1) = fst (m w2).

(** Every character of [s] satisfies [p]. *)
Definition all_chars (p : ascii -> bool) (s : string) : bool :=
  forallb p (list_ascii_of_string s).

Definition digit_or_comma (c : ascii) : bool := is_digit c || Ascii.eqb c ",".

(** A root without attributes and without children, in the v4 namespace. *)
Definition doc_v4_vacio : Element := Elem (clark NS_CFDI4 "Comprobante") ∅ [].

(** The date attribute the field mapping of the document's version reads. *)
Definition fecha_attr (root : Element) : option string :=
  if String.eqb (_detectar_version root) "4.0" then get root "Fecha"
  else py_or (get root "fecha") (get root "Fecha").

(** A version 4.0 invoice with a date in no accepted format. *)
Definition doc_v4_fecha_mala : Element :=
  Elem (clark NS_CFDI4 "Comprobante")
       (<["Folio" := "3"]> (<["Fecha" := "15/01/2024"]> ∅)) [].

(** An invoice without any namespace, with an issuer and a stamp. *)
Definition doc_plano : Element :=
  Elem "Comprobante" (<["Folio" := "5"]> (<["Moneda" := "USD"]> (<["Total" := "10.50"]> ∅)))
       [ Elem "Emisor" (<["Rfc" := "AAA010101AAA"]> ∅) [];
         Elem "Complemento" ∅ [timbre_ejemplo] ].

(** A filesystem with these two documents. *)
Definition w_otros : world :=
  mkWorld (Dir [ ("fecha.xml", File (WellFormed doc_v4_fecha_mala));
                 ("plano.xml", File (WellFormed doc_plano)) ]) [] [].

(** A filesystem with an empty data directory. *)
Definition w_vacio_data : world := mkWorld (Dir [("app", Dir [("data", Dir [])])]) [] [].

(** A filesystem with that document. *)
Definition w_doc_vacio : world :=
  mkWorld (Dir [("vacio.xml", File (WellFormed doc_v4_vacio))]) [] [].

(** A record with a series and without folio, from an issuer without
    legal name. *)
Definition cfdi_sin_folio : CFDIData :=
  set_serie (Some "A") (set_emisor_rfc (Some "AAA010101AAA") CFDIData_new).

(** A filesystem whose pending path is a regular file. *)
Definition w_pendientes_archivo : world :=
  mkWorld (Dir [("app",
                 Dir [("data",
                       Dir [("facturas_pendientes", File (Malformed "x"))])])]) [] [].

(** A filesystem whose data path is a regular file. *)
Definition w_data_archivo : world :=
  mkWorld (Dir [("app", Dir [("data", File (Malformed "x"))])]) [] [].

(** ** The code over the library functions *)

Section Extractor.

(** [datetime.strptime]; [None] stands for [ValueError]. *)
Variable strptime : string -> string -> option datetime.
(** [float()] on a string; [None] stands for [ValueError]. *)
Variable float_of_str : string -> option spec_float.
(** [__file__] of [mod_rutas.py]. *)
Variable FILE : Path.

(** *** [mod_rutas.py] *)

Definition DIR_BASE : Path := path_parent (path_parent FILE).
Definition DIR_DATA : Path := (DIR_BASE ++ ["data"])%list.
Definition DIR_UTILS : Path := (DIR_BASE ++ ["utils"])%list.
Definition DIR_SRC : Path := (DIR_BASE ++ ["src"])%list.
Definition DIR_PENDIENTES : Path := (DIR_BASE ++ ["data"; "facturas_pendientes"])%list.
Definition DIR_PROCESADAS : Path := (DIR_BASE ++ ["data"; "facturas_procesadas"])%list.

Definition init_directorios : M unit :=
  let directorios := [DIR_PROCESADAS; DIR_PENDIENTES] in
  for_each directorios (fun directorio => mkdir_parents_exist_ok directorio).

(** *** [mod_xml.py] *)

(** A call of [datetime.strptime(s, f)], recorded in the world. *)
Definition strptime_call (s f : string) : M (option datetime) :=
  fun w => (Ok (strptime s f), mkWorld (fs w) (stdout w) (strptime_calls w ++ [(s, f)])).

Definition formatos : list string :=
  [ "%Y-%m-%dT%H:%M:%S";
    "%Y-%m-%d %H:%M:%S";
    "%Y-%m-%dT%H:%M:%S.%f";
    "%Y-%m-%d" ].

(** The loop over the formats, followed by the statements after it. *)
Fixpoint probar_formatos (fecha_str : string) (fs : list string) : M (option datetime) :=
  match fs with
  | [] =>
      print ("No se pudo convertir la fecha: " ++ fecha_str) ;;;
      ret None
  | formato :: resto =>
      r <- strptime_call fecha_str formato ;;
      match r with
      | Some d => ret (Some d)
      | None => probar_formatos fecha_str resto
      end
  end.

(** [CFDIParser._convertir_fecha] *)
Definition _convertir_fecha (fecha_str : option string) : M (option datetime) :=
  match fecha_str with
  | None => ret None
  | Some s => if String.eqb s "" then ret None else probar_formatos s formatos
  end.

(** [CFDIParser._convertir_a_float] *)
Definition _convertir_a_float (valor : option string) : option spec_float :=
  match valor with
  | None => None
  | Some s => if String.eqb s "" then None else float_of_str s
  end.

(** [CFDIParser._extraer_timbre_fiscal]; the record passed in is returned
    updated. *)
Definition _extraer_timbre_fiscal (self : CFDIParser) (root : Element) (cfdi : CFDIData)
  : M CFDIData :=
  complemento <- find_descendant root "tfd" "TimbreFiscalDigital" (namespaces self) ;;
  match complemento with
  | Some complemento =>
      let cfdi := set_uuid (get complemento "UUID") cfdi in
      f <- _convertir_fecha (get complemento "FechaTimbrado") ;;
      ret (set_fecha_timbrado f cfdi)
  | None => ret cfdi
  end.

(** [CFDIParser._parsear_cfdi_v4] *)
Definition _parsear_cfdi_v4 (self : CFDIParser) (root : Element) (archivo : Path)
  : M CFDIData :=
  let cfdi := CFDIData_new in
  let cfdi := set_version (Some "4.0") cfdi in
  let cfdi := set_archivo_origen (Some (path_name archivo)) cfdi in
  let cfdi := set_folio (get root "Folio") cfdi in
  let cfdi := set_serie (get root "Serie") cfdi in
  let cfdi := set_total (_convertir_a_float (get root "Total")) cfdi in
  let cfdi := set_subtotal (_convertir_a_float (get root "SubTotal")) cfdi in
  let cfdi := set_moneda (Some (get_default root "Moneda" "MXN")) cfdi in
  f <- _convertir_fecha (get root "Fecha") ;;
  let cfdi := set_fecha_emision f cfdi in
  emisor <- find root "cfdi" "Emisor" (namespaces self) ;;
  let cfdi :=
    match emisor with
    | Some emisor =>
        let cfdi := set_emisor_rfc (get emisor "Rfc") cfdi in
        let cfdi := set_emisor_nombre (get emisor "Nombre") cfdi in
        set_emisor_regimen (get emisor "RegimenFiscal") cfdi
    | None => cfdi
    end in
  receptor <- find root "cfdi" "Receptor" (namespaces self) ;;
  let cfdi :=
    match receptor with
    | Some receptor =>
        let cfdi := set_receptor_rfc (get receptor "Rfc") cfdi in
        set_receptor_nombre (get receptor "Nombre") cfdi
    | None => cfdi
    end in
  _extraer_timbre_fiscal self root cfdi.

(** [CFDIParser._parsear_cfdi_v3] *)
Definition _parsear_cfdi_v3 (self : CFDIParser) (root : Element) (archivo : Path)
  : M CFDIData :=
  let cfdi := CFDIData_new in
  let cfdi := set_version (Some "3.3") cfdi in
  let cfdi := set_archivo_origen (Some (path_name archivo)) cfdi in
  let ns : gmap string string := <["cfdi" := "http://www.sat.gob.mx/cfd/3"]> ∅ in
  let cfdi := set_folio (py_or (get root "folio") (get root "Folio")) cfdi in
  let cfdi := set_serie (py_or (get root "serie") (get root "Serie")) cfdi in
  let cfdi := set_total (_convertir_a_float (py_or (get root "total") (get root "Total"))) cfdi in
  let cfdi :=
    set_subtotal (_convertir_a_float (py_or (get root "subTotal") (get root "SubTotal"))) cfdi in
  let cfdi := set_moneda (Some (get_default root "Moneda" "MXN")) cfdi in
  f <- _convertir_fecha (py_or (get root "fecha") (get root "Fecha")) ;;
  let cfdi := set_fecha_emision f cfdi in
  emisor <- find root "cfdi" "Emisor" ns ;;
  let cfdi :=
    match emisor with
    | Some emisor =>
        let cfdi := set_emisor_rfc (py_or (get emisor "rfc") (get emisor "Rfc")) cfdi in
        set_emisor_nombre (py_or (get emisor "nombre") (get emisor "Nombre")) cfdi
    | None => cfdi
    end in
  receptor <- find root "cfdi" "Receptor" ns ;;
  let cfdi :=
    match receptor with
    | Some receptor =>
        let cfdi := set_receptor_rfc (py_or (get receptor "rfc") (get receptor "Rfc")) cfdi in
        set_receptor_nombre (py_or (get receptor "nombre") (get receptor "Nombre")) cfdi
    | None => cfdi
    end in
  _extraer_timbre_fiscal self root cfdi.

(** The body of the [try] of [parsear_archivo]. *)
Definition parsear_archivo_try (self : CFDIParser) (ruta_archivo : Path) : M CFDIData :=
  existe <- path_exists ruta_archivo ;;
  if negb existe
  then raise (mkExn FileNotFoundError ("Archivo no encontrado: " ++ path_str ruta_archivo))
  else
    root <- ET_parse ruta_archivo ;;
    let version := _detectar_version root in
    if String.eqb version "4.0" then _parsear_cfdi_v4 self root ruta_archivo
    else if String.eqb version "3.3" then _parsear_cfdi_v3 self root ruta_archivo
    else raise (mkExn ValueError ("Versión de CFDI no soportada: " ++ version)).

(** The line printed by the [except] clause of [parsear_archivo]. *)
Definition error_line (ruta_archivo : Path) (e : exn) : string :=
  "Error al parsear CFDI " ++ path_str ruta_archivo ++ ": " ++ exn_str e.

(** [CFDIParser.parsear_archivo] *)
Definition parsear_archivo (self : CFDIParser) (ruta_archivo : Path)
  : M (option CFDIData) :=
  try_except
    (cfdi <- parsear_archivo_try self ruta_archivo ;; ret (Some cfdi))
    (fun e => print (error_line ruta_archivo e) ;;; ret None).

(** [parsear_cfdi] *)
Definition parsear_cfdi (archivo_path : Path) : M (option CFDIData) :=
  let parser := CFDIParser_init in
  parsear_archivo parser archivo_path.

(** The loop of [procesar_cfdis_pendientes] over the files listed, with
    the list built so far. *)
Fixpoint procesar_archivos (archivos : list Path) (cfdis : list CFDIData)
  : M (list CFDIData) :=
  match archivos with
  | [] => ret cfdis
  | archivo :: resto =>
      cfdi_data <- parsear_cfdi archivo ;;
      match cfdi_data with
      | Some c => procesar_archivos resto (cfdis ++ [c])%list
      | None => procesar_archivos resto cfdis
      end
  end.

(** [procesar_cfdis_pendientes] *)
Definition procesar_cfdis_pendientes : M (list CFDIData) :=
  let cfdis := [] in
  existe <- path_exists DIR_PENDIENTES ;;
  if existe
  then archivos <- glob_xml DIR_PENDIENTES ;; procesar_archivos archivos cfdis
  else ret cfdis.

(** *** Notions used by the statements *)

(** The formats [probar_formatos] passes to [strptime], in order: up to
    and including the first that succeeds. *)
Fixpoint intentados (s : string) (fs : list string) : list string :=
  match fs with
  | [] => []
  | f :: fs' =>
      match strptime s f with
      | Some _ => [f]
      | None => f :: intentados s fs'
      end
  end.

(** What [_convertir_fecha] returns, prints and calls. *)
Definition fecha_valor (o : option string) : option datetime :=
  if truthy_str o then first_some (strptime (default "" o)) formatos else None.

Definition fecha_salida (o : option string) : list string :=
  if truthy_str o then
    match first_some (strptime (default "" o)) formatos with
    | Some _ => []
    | None => ["No se pudo convertir la fecha: " ++ default "" o]
    end
  else [].

Definition fecha_llamadas (o : option string) : list (string * string) :=
  if truthy_str o
  then List.map (pair (default "" o)) (intentados (default "" o) formatos)
  else [].

(** The order of the formats as the specification lists them: ISO with
    seconds, ISO with fractional seconds, space-separated, date-only. *)
Definition formatos_orden_spec : list string :=
  [ "%Y-%m-%dT%H:%M:%S";
    "%Y-%m-%dT%H:%M:%S.%f";
    "%Y-%m-%d %H:%M:%S";
    "%Y-%m-%d" ].

(** Date coercion as the specification words it: the same loop over the
    formats in the specification's order. *)
Definition convertir_fecha_orden_spec (fecha_str : option string) : M (option datetime) :=
  match fecha_str with
  | None => ret None
  | Some s => if String.eqb s "" then ret None else probar_formatos s formatos_orden_spec
  end.

(** The field mapping a detected version selects. *)
Definition dispatch (self : CFDIParser) (root : Element) (ruta : Path) : M CFDIData :=
  if String.eqb (_detectar_version root) "4.0" then _parsear_cfdi_v4 self root ruta
  else if String.eqb (_detectar_version root) "3.3" then _parsear_cfdi_v3 self root ruta
  else raise (mkExn ValueError ("Versión de CFDI no soportada: " ++ _detectar_version root)).

(** What the extractor returns for the file [archivo] in the world [w]. *)
Definition parse_value (archivo : Path) (w : world) : option CFDIData :=
  match fst (parsear_cfdi archivo w) with
  | Ok r => r
  | Raised _ => None
  end.

(** ** Properties *)

(** *** Worlds and the monad *)

Lemma emit_nil w : emit w [] [] = w.
Proof. destruct w; unfold emit; simpl. by rewrite !app_nil_r. Qed.

Lemma emit_emit w a b c d : emit (emit w a b) c d = emit w (a ++ c) (b ++ d).
Proof. unfold emit; simpl. by rewrite !app_assoc. Qed.

Lemma fs_emit w a b : fs (emit w a b) = fs w.
Proof. reflexivity. Qed.

(** *** Date coercion *)

Lemma first_some_split {A B} (f : A -> option B) pre x post y :
  Forall (fun a => f a = None) pre -> f x = Some y ->
  first_some f (pre ++ x :: post) = Some y.
Proof.
  induction 1 as [|a pre Ha _ IH]; intros Hx; simpl.
  - by rewrite Hx.
  - rewrite Ha. by apply IH.
Qed.

Lemma first_some_none {A B} (f : A -> option B) l :
  Forall (fun a => f a = None) l -> first_some f l = None.
Proof. induction 1 as [|a l Ha _ IH]; simpl; [done|]. by rewrite Ha. Qed.

Lemma intentados_split s pre f post d :
  Forall (fun g => strptime s g = None) pre -> strptime s f = Some d ->
  intentados s (pre ++ f :: post) = (pre ++ [f])%list.
Proof.
  induction 1 as [|a pre Ha _ IH]; intros Hf; simpl.
  - by rewrite Hf.
  - rewrite Ha. f_equal. by apply IH.
Qed.

Lemma intentados_none s l :
  Forall (fun g => strptime s g = None) l -> intentados s l = l.
Proof. induction 1 as [|a l Ha _ IH]; simpl; [done|]. rewrite Ha. by f_equal. Qed.

(** The loop returns the first success, prints the diagnostic when there
    is none, and calls [strptime] on the formats tried, in order. *)
Lemma probar_formatos_run s l w :
  probar_formatos s l w =
    (Ok (first_some (strptime s) l),
     emit w (match first_some (strptime s) l with
             | Some _ => []
             | None => ["No se pudo convertir la fecha: " ++ s]
             end)
            (List.map (pair s) (intentados s l))).
Proof.
  revert w. induction l as [|f l IH]; intros w.
  - destruct w; unfold emit; simpl. unfold bind, print, ret; simpl.
    by rewrite app_nil_r.
  - simpl. unfold bind, strptime_call.
    destruct (strptime s f) as [d|] eqn:Hf.
    + destruct w; unfold ret, emit; simpl. by rewrite app_nil_r.
    + rewrite IH. f_equal. destruct w; unfold emit; simpl.
      by rewrite <- app_assoc.
Qed.

Lemma _convertir_fecha_run o w :
  _convertir_fecha o w = (Ok (fecha_valor o), emit w (fecha_salida o) (fecha_llamadas o)).
Proof.
  unfold _convertir_fecha, fecha_valor, fecha_salida, fecha_llamadas.
  destruct o as [s|]; unfold truthy_str.
  - destruct (String.eqb s "") eqn:Hs; cbn [negb default].
    + by rewrite emit_nil.
    + apply probar_formatos_run.
  - by rewrite emit_nil.
Qed.

Lemma truthy_str_Some s : s <> "" -> truthy_str (Some s) = true.
Proof.
  intros Hs. simpl. destruct (String.eqb_spec s ""); [contradiction|reflexivity].
Qed.

(** C3, as amended: date coercion returns null for an empty or missing
    string; otherwise it tries the formats in the order ISO with seconds,
    space-separated, ISO with fractional seconds, date-only, and returns
    the first successful parse, having called [strptime] on the formats up
    to that one and no further; when none succeeds it prints the
    diagnostic and returns null. *)
Theorem convertir_fecha_first_success (o : option string) (w : world) :
  (truthy_str o = false -> _convertir_fecha o w = (Ok None, w)) /\
  (forall s pre f post d,
      o = Some s -> s <> "" ->
      [ "%Y-%m-%dT%H:%M:%S"; "%Y-%m-%d %H:%M:%S";
        "%Y-%m-%dT%H:%M:%S.%f"; "%Y-%m-%d" ] = (pre ++ f :: post)%list ->
      Forall (fun g => strptime s g = None) pre ->
      strptime s f = Some d ->
      _convertir_fecha o w = (Ok (Some d), emit w [] (List.map (pair s) (pre ++ [f])))) /\
  (forall s,
      o = Some s -> s <> "" ->
      Forall (fun g => strptime s g = None)
             [ "%Y-%m-%dT%H:%M:%S"; "%Y-%m-%d %H:%M:%S";
               "%Y-%m-%dT%H:%M:%S.%f"; "%Y-%m-%d" ] ->
      _convertir_fecha o w =
        (Ok None,
         emit w ["No se pudo convertir la fecha: " ++ s]
              (List.map (pair s)
                 [ "%Y-%m-%dT%H:%M:%S"; "%Y-%m-%d %H:%M:%S";
                   "%Y-%m-%dT%H:%M:%S.%f"; "%Y-%m-%d" ]))).
Proof.
  rewrite _convertir_fecha_run.
  unfold fecha_valor, fecha_salida, fecha_llamadas.
  split; [|split].
  - intros ->. by rewrite emit_nil.
  - intros s pre f post d -> Hs Hsplit Hpre Hf.
    rewrite (truthy_str_Some s Hs). simpl default.
    change formatos with
      [ "%Y-%m-%dT%H:%M:%S"; "%Y-%m-%d %H:%M:%S"; "%Y-%m-%dT%H:%M:%S.%f"; "%Y-%m-%d" ].
    rewrite Hsplit.
    rewrite (first_some_split _ pre f post d Hpre Hf).
    by rewrite (intentados_split s pre f post d Hpre Hf).
  - intros s -> Hs Hall.
    rewrite (truthy_str_Some s Hs). simpl default.
    change formatos with
      [ "%Y-%m-%dT%H:%M:%S"; "%Y-%m-%d %H:%M:%S"; "%Y-%m-%dT%H:%M:%S.%f"; "%Y-%m-%d" ].
    rewrite (first_some_none _ _ Hall).
    by rewrite (intentados_none s _ Hall).
Qed.

(** *** Computations that only read the filesystem *)

Lemma fs_reader_ret {A} (a : A) : fs_reader (ret a).
Proof. by intros w1 w2 _. Qed.

Lemma fs_reader_raise {A} (e : exn) : fs_reader (@raise A e).
Proof. by intros w1 w2 _. Qed.

Lemma fs_reader_bind {A B} (m : M A) (k : A -> M B) :
  fs_reader m -> (forall a, fs_reader (k a)) -> fs_reader (bind m k).
Proof.
  intros Hm Hk w1 w2 Hfs. unfold bind.
  destruct (Hm w1 w2 Hfs) as [Hv H1].
  destruct (Hm w2 w2 eq_refl) as [_ H2].
  destruct (m w1) as [o1 w1'], (m w2) as [o2 w2']; simpl in *. subst o2.
  destruct o1 as [a|e]; simpl; [|done].
  destruct (Hk a w1' w2') as [Hv' H']; [congruence|].
  split; [done|congruence].
Qed.

Lemma fs_reader_try_except {A} (m : M A) (h : exn -> M A) :
  fs_reader m -> (forall e, fs_reader (h e)) -> fs_reader (try_except m h).
Proof.
  intros Hm Hh w1 w2 Hfs. unfold try_except.
  destruct (Hm w1 w2 Hfs) as [Hv H1].
  destruct (Hm w2 w2 eq_refl) as [_ H2].
  destruct (m w1) as [o1 w1'], (m w2) as [o2 w2']; simpl in *. subst o2.
  destruct o1 as [a|e]; simpl; [done|].
  destruct (Hh e w1' w2') as [Hv' H']; [congruence|].
  split; [done|congruence].
Qed.

Lemma fs_reader_print line : fs_reader (print line).
Proof. by intros w1 w2 _. Qed.

Lemma fs_reader_strptime_call s f : fs_reader (strptime_call s f).
Proof. by intros w1 w2 _. Qed.

Lemma fs_reader_path_exists p : fs_reader (path_exists p).
Proof. intros w1 w2 Hfs. unfold path_exists; simpl. by rewrite Hfs. Qed.

Lemma fs_reader_glob_xml p : fs_reader (glob_xml p).
Proof. intros w1 w2 Hfs. unfold glob_xml; simpl. by rewrite Hfs. Qed.

Lemma fs_reader_ET_parse p : fs_reader (ET_parse p).
Proof.
  intros w1 w2 Hfs. unfold ET_parse. rewrite <- Hfs.
  destruct (resolve p (fs w1)) as [[[msg|root]|es]|]; done.
Qed.

Lemma fs_reader_find e prefix local ns : fs_reader (find e prefix local ns).
Proof. unfold find. destruct (ns !! prefix); [apply fs_reader_ret|apply fs_reader_raise]. Qed.

Lemma fs_reader_find_descendant e prefix local ns :
  fs_reader (find_descendant e prefix local ns).
Proof.
  unfold find_descendant.
  destruct (ns !! prefix); [apply fs_reader_ret|apply fs_reader_raise].
Qed.

Create HintDb fs_reader.
#[local] Hint Resolve fs_reader_ret fs_reader_raise fs_reader_print
  fs_reader_strptime_call fs_reader_path_exists fs_reader_glob_xml
  fs_reader_ET_parse fs_reader_find fs_reader_find_descendant : fs_reader.

(** Decomposes a goal [fs_reader m] along the shape of [m]. *)
Ltac fs_reader_step :=
  match goal with
  | |- fs_reader (bind _ _) => apply fs_reader_bind; [|intros ?]
  | |- fs_reader (try_except _ _) => apply fs_reader_try_except; [|intros ?]
  | |- fs_reader (match ?x with _ => _ end) => destruct x
  | |- fs_reader _ => solve [auto with fs_reader]
  end.

Lemma fs_reader_probar_formatos s l : fs_reader (probar_formatos s l).
Proof. induction l as [|f l IH]; simpl; repeat fs_reader_step. Qed.

Lemma fs_reader__convertir_fecha o : fs_reader (_convertir_fecha o).
Proof.
  unfold _convertir_fecha. repeat fs_reader_step. apply fs_reader_probar_formatos.
Qed.
#[local] Hint Resolve fs_reader__convertir_fecha : fs_reader.

Lemma fs_reader__extraer_timbre_fiscal self root cfdi :
  fs_reader (_extraer_timbre_fiscal self root cfdi).
Proof. unfold _extraer_timbre_fiscal. repeat fs_reader_step. Qed.
#[local] Hint Resolve fs_reader__extraer_timbre_fiscal : fs_reader.

Lemma fs_reader__parsear_cfdi_v4 self root archivo :
  fs_reader (_parsear_cfdi_v4 self root archivo).
Proof. unfold _parsear_cfdi_v4. cbv zeta. repeat fs_reader_step. Qed.

Lemma fs_reader__parsear_cfdi_v3 self root archivo :
  fs_reader (_parsear_cfdi_v3 self root archivo).
Proof. unfold _parsear_cfdi_v3. cbv zeta. repeat fs_reader_step. Qed.
#[local] Hint Resolve fs_reader__parsear_cfdi_v4 fs_reader__parsear_cfdi_v3 : fs_reader.

Lemma fs_reader_parsear_archivo self ruta : fs_reader (parsear_archivo self ruta).
Proof.
  unfold parsear_archivo, parsear_archivo_try. cbv zeta. repeat fs_reader_step.
Qed.

Lemma fs_reader_parsear_cfdi archivo : fs_reader (parsear_cfdi archivo).
Proof. apply fs_reader_parsear_archivo. Qed.
#[local] Hint Resolve fs_reader_parsear_archivo fs_reader_parsear_cfdi : fs_reader.

Lemma fs_reader_procesar_archivos archivos cfdis :
  fs_reader (procesar_archivos archivos cfdis).
Proof.
  revert cfdis. induction archivos as [|a l IH]; intros cfdis; simpl.
  - auto with fs_reader.
  - apply fs_reader_bind; [auto with fs_reader|]. intros [c|]; apply IH.
Qed.

Lemma fs_reader_procesar_cfdis_pendientes : fs_reader procesar_cfdis_pendientes.
Proof.
  unfold procesar_cfdis_pendientes. cbv zeta.
  apply fs_reader_bind; [auto with fs_reader|]. intros [|]; [|auto with fs_reader].
  apply fs_reader_bind; [auto with fs_reader|]. intros l.
  apply fs_reader_procesar_archivos.
Qed.

Lemma fs_reader_fs {A} (m : M A) w : fs_reader m -> fs (snd (m w)) = fs w.
Proof. intros Hm. by destruct (Hm w w eq_refl). Qed.

(** *** Exceptions stop at the entry point *)

Lemma never_raises_parsear_archivo self ruta : never_raises (parsear_archivo self ruta).
Proof.
  intros w. unfold parsear_archivo, try_except, bind.
  destruct (parsear_archivo_try self ruta w) as [[r|e] w']; simpl; eauto.
Qed.

Lemma never_raises_procesar_archivos archivos cfdis :
  never_raises (procesar_archivos archivos cfdis).
Proof.
  revert cfdis. induction archivos as [|a l IH]; intros cfdis w; simpl.
  - unfold ret; eauto.
  - unfold bind.
    destruct (never_raises_parsear_archivo CFDIParser_init a w) as (r & w' & Hr).
    unfold parsear_cfdi. rewrite Hr. destruct r; apply IH.
Qed.

Lemma never_raises_procesar_cfdis_pendientes : never_raises procesar_cfdis_pendientes.
Proof.
  intros w. unfold procesar_cfdis_pendientes, bind, path_exists, glob_xml. cbv zeta.
  destruct (bool_decide _); [|unfold ret; eauto].
  apply never_raises_procesar_archivos.
Qed.

(** *** The records built by the two field mappings *)

(** Runs a field mapping symbolically: date coercions are replaced by
    their value and effects, lookups of prefixes and searches for elements
    are split by cases. *)
Ltac run_mapping :=
  repeat first
    [ rewrite _convertir_fecha_run
    | progress cbv beta iota zeta
    | match goal with
      | |- context [match namespaces ?s !! ?k with _ => _ end] =>
          destruct (namespaces s !! k) eqn:?
      | |- context [match List.find ?f ?l with _ => _ end] =>
          destruct (List.find f l) eqn:?
      end ].

Ltac unfold_mapping :=
  unfold _parsear_cfdi_v4, _parsear_cfdi_v3, _extraer_timbre_fiscal,
    find, find_descendant, bind, ret, raise.

Lemma lookup_ns_v3 :
  (<["cfdi" := "http://www.sat.gob.mx/cfd/3"]> (∅ : gmap string string)) !! "cfdi"
  = Some NS_CFDI3.
Proof. reflexivity. Qed.

(** Version 4.0 reads each attribute under its PascalCase name. *)
Lemma returns__parsear_cfdi_v4 self root archivo :
  returns (_parsear_cfdi_v4 self root archivo)
    (fun r =>
       version r = Some "4.0" /\
       archivo_origen r = Some (path_name archivo) /\
       folio r = get root "Folio" /\
       serie r = get root "Serie" /\
       total r = _convertir_a_float (get root "Total") /\
       subtotal r = _convertir_a_float (get root "SubTotal") /\
       moneda r = Some (get_default root "Moneda" "MXN") /\
       fecha_emision r = fecha_valor (get root "Fecha")).
Proof.
  intros w r w'. unfold_mapping. run_mapping; intros H; simplify_eq; done.
Qed.

(** Version 3.3 reads each listed attribute under its lowercase-initial
    name first and under its PascalCase name next, and the currency under
    [Moneda] only. *)
Lemma returns__parsear_cfdi_v3 self root archivo :
  returns (_parsear_cfdi_v3 self root archivo)
    (fun r =>
       version r = Some "3.3" /\
       archivo_origen r = Some (path_name archivo) /\
       folio r = py_or (get root "folio") (get root "Folio") /\
       serie r = py_or (get root "serie") (get root "Serie") /\
       total r = _convertir_a_float (py_or (get root "total") (get root "Total")) /\
       subtotal r =
         _convertir_a_float (py_or (get root "subTotal") (get root "SubTotal")) /\
       moneda r = Some (get_default root "Moneda" "MXN") /\
       fecha_emision r = fecha_valor (py_or (get root "fecha") (get root "Fecha")) /\
       emisor_rfc r =
         child root NS_CFDI3 "Emisor" ≫= (fun e => py_or (get e "rfc") (get e "Rfc")) /\
       emisor_nombre r =
         child root NS_CFDI3 "Emisor" ≫= (fun e => py_or (get e "nombre") (get e "Nombre")) /\
       receptor_rfc r =
         child root NS_CFDI3 "Receptor" ≫= (fun e => py_or (get e "rfc") (get e "Rfc")) /\
       receptor_nombre r =
         child root NS_CFDI3 "Receptor"
           ≫= (fun e => py_or (get e "nombre") (get e "Nombre"))).
Proof.
  intros w r w'. unfold_mapping. cbv zeta. rewrite lookup_ns_v3. unfold child.
  run_mapping; intros H; simplify_eq; done.
Qed.

(** *** The entry point, case by case *)

Lemma lookup_tfd : namespaces CFDIParser_init !! "tfd" = Some NS_TFD.
Proof. reflexivity. Qed.

Lemma lookup_cfdi : namespaces CFDIParser_init !! "cfdi" = Some NS_CFDI4.
Proof. reflexivity. Qed.

Lemma path_exists_run p w :
  path_exists p w = (Ok (bool_decide (is_Some (resolve p (fs w)))), w).
Proof. reflexivity. Qed.

(** A missing file. *)
Lemma parsear_archivo_missing self ruta w :
  resolve ruta (fs w) = None ->
  parsear_archivo self ruta w =
    (Ok None,
     emit w ["Error al parsear CFDI " ++ path_str ruta
               ++ ": Archivo no encontrado: " ++ path_str ruta] []).
Proof.
  intros H. unfold parsear_archivo, parsear_archivo_try, try_except, bind.
  rewrite path_exists_run, H.
  rewrite bool_decide_eq_false_2 by (intros [? ?]; discriminate).
  destruct w; unfold emit; simpl. by rewrite app_nil_r.
Qed.

(** A file that is not well-formed XML. *)
Lemma parsear_archivo_malformed self ruta w msg :
  resolve ruta (fs w) = Some (File (Malformed msg)) ->
  parsear_archivo self ruta w =
    (Ok None, emit w ["Error al parsear CFDI " ++ path_str ruta ++ ": " ++ msg] []).
Proof.
  intros H. unfold parsear_archivo, parsear_archivo_try, try_except, bind, ET_parse.
  rewrite path_exists_run. cbv beta iota. rewrite H.
  rewrite bool_decide_eq_true_2 by eauto. cbv beta iota delta [negb]. rewrite H.
  destruct w; unfold emit; simpl. by rewrite app_nil_r.
Qed.

(** A well-formed file: the entry point runs the selected field mapping
    under its handler. *)
Lemma parsear_archivo_root self ruta w root :
  resolve ruta (fs w) = Some (File (WellFormed root)) ->
  parsear_archivo self ruta w =
    try_except (cfdi <- dispatch self root ruta ;; ret (Some cfdi))
               (fun e => print (error_line ruta e) ;;; ret None) w.
Proof.
  intros H. unfold parsear_archivo, parsear_archivo_try, try_except, bind, ET_parse, dispatch.
  rewrite path_exists_run. cbv beta iota. rewrite H.
  rewrite bool_decide_eq_true_2 by eauto. cbv beta iota delta [negb]. rewrite H.
  reflexivity.
Qed.

(** A well-formed file of an unsupported version. *)
Lemma parsear_archivo_unsupported self ruta w root :
  resolve ruta (fs w) = Some (File (WellFormed root)) ->
  _detectar_version root <> "4.0" -> _detectar_version root <> "3.3" ->
  parsear_archivo self ruta w =
    (Ok None,
     emit w ["Error al parsear CFDI " ++ path_str ruta
               ++ ": Versión de CFDI no soportada: " ++ _detectar_version root] []).
Proof.
  intros H H4 H3. rewrite (parsear_archivo_root _ _ _ _ H).
  unfold dispatch, try_except, bind.
  destruct (String.eqb_spec (_detectar_version root) "4.0"); [contradiction|].
  destruct (String.eqb_spec (_detectar_version root) "3.3"); [contradiction|].
  destruct w; unfold emit; simpl. by rewrite app_nil_r.
Qed.

Lemma returns_dispatch self root ruta :
  returns (dispatch self root ruta)
          (fun r => version r = Some (_detectar_version root) /\
                    (version r = Some "4.0" \/ version r = Some "3.3")).
Proof.
  intros w r w' H. unfold dispatch in H.
  destruct (String.eqb_spec (_detectar_version root) "4.0") as [E4|_].
  - apply returns__parsear_cfdi_v4 in H as (Hv & _). rewrite E4. auto.
  - destruct (String.eqb_spec (_detectar_version root) "3.3") as [E3|_].
    + apply returns__parsear_cfdi_v3 in H as (Hv & _). rewrite E3. auto.
    + discriminate H.
Qed.

(** C6: the entry point never raises. A missing file, a file that is not
    well-formed XML and a document of an unsupported version each make it
    print one diagnostic line, naming the file and the cause, and return
    null; the batch driver never raises either. *)
Theorem parse_absorbs_failures (self : CFDIParser) (ruta : Path) (w : world) :
  (exists r w', parsear_archivo self ruta w = (Ok r, w')) /\
  (resolve ruta (fs w) = None ->
     parsear_archivo self ruta w =
       (Ok None,
        emit w ["Error al parsear CFDI " ++ path_str ruta
                  ++ ": Archivo no encontrado: " ++ path_str ruta] [])) /\
  (forall msg, resolve ruta (fs w) = Some (File (Malformed msg)) ->
     parsear_archivo self ruta w =
       (Ok None, emit w ["Error al parsear CFDI " ++ path_str ruta ++ ": " ++ msg] [])) /\
  (forall root, resolve ruta (fs w) = Some (File (WellFormed root)) ->
     _detectar_version root <> "4.0" -> _detectar_version root <> "3.3" ->
     parsear_archivo self ruta w =
       (Ok None,
        emit w ["Error al parsear CFDI " ++ path_str ruta
                  ++ ": Versión de CFDI no soportada: " ++ _detectar_version root] [])) /\
  (exists l w', procesar_cfdis_pendientes w = (Ok l, w')).
Proof.
  split; [apply never_raises_parsear_archivo|].
  split; [apply parsear_archivo_missing|].
  split; [intros msg; apply parsear_archivo_malformed|].
  split; [intros root; apply parsear_archivo_unsupported|].
  apply never_raises_procesar_cfdis_pendientes.
Qed.

(** C5: a record returned by the entry point carries the version detected
    in its document, and that version is "4.0" or "3.3"; when any other
    version is detected the entry point returns null, and no record. *)
Theorem parse_version_supported (self : CFDIParser) (ruta : Path) (w : world) :
  (forall r w', parsear_archivo self ruta w = (Ok (Some r), w') ->
     (version r = Some "4.0" \/ version r = Some "3.3") /\
     exists root, resolve ruta (fs w) = Some (File (WellFormed root)) /\
                  version r = Some (_detectar_version root)) /\
  (forall root, resolve ruta (fs w) = Some (File (WellFormed root)) ->
     _detectar_version root <> "4.0" -> _detectar_version root <> "3.3" ->
     fst (parsear_archivo self ruta w) = Ok None).
Proof.
  split.
  - intros r w' H.
    destruct (resolve ruta (fs w)) as [[[msg|root]|es]|] eqn:Hres.
    + rewrite (parsear_archivo_malformed _ _ _ _ Hres) in H. discriminate H.
    + rewrite (parsear_archivo_root _ _ _ _ Hres) in H.
      unfold try_except, bind in H.
      destruct (dispatch self root ruta w) as [[r0|e] w0] eqn:Hd.
      * unfold ret in H. simplify_eq.
        apply returns_dispatch in Hd as [Hv Hor]. eauto.
      * discriminate H.
    + unfold parsear_archivo, parsear_archivo_try, try_except, bind, ET_parse in H.
      rewrite path_exists_run in H. cbv beta iota in H. rewrite Hres in H.
      rewrite bool_decide_eq_true_2 in H by eauto.
      cbv beta iota delta [negb] in H. rewrite Hres in H. discriminate H.
    + rewrite (parsear_archivo_missing _ _ _ Hres) in H. discriminate H.
  - intros root Hres H4 H3.
    by rewrite (parsear_archivo_unsupported _ _ _ _ Hres H4 H3).
Qed.

(** *** Version detection *)

Lemma string_prefix_cons a s1 b s2 :
  String.prefix (String a s1) (String b s2)
  = if Ascii.eqb a b then String.prefix s1 s2 else false.
Proof.
  cbn [String.prefix].
  destruct (ascii_dec a b) as [->|Hne].
  - by rewrite Ascii.eqb_refl.
  - by destruct (Ascii.eqb_spec a b).
Qed.

Lemma prefix_until_brace u s :
  until_brace u = None ->
  String.prefix (u ++ "}") s = true <-> until_brace s = Some u.
Proof.
  revert s. induction u as [|a u IH]; intros s Hu.
  - destruct s as [|b s]; [split; intros; discriminate|].
    change ("" ++ "}") with (String "}" EmptyString).
    rewrite string_prefix_cons. cbn [until_brace].
    rewrite (Ascii.eqb_sym "}" b).
    destruct (Ascii.eqb b "}").
    + split; [done|]. intros _. by destruct s.
    + split; [intros; discriminate|].
      destruct (until_brace s); simpl; intros; discriminate.
  - cbn [until_brace] in Hu.
    destruct (Ascii.eqb_spec a "}") as [->|Ha]; [discriminate|].
    destruct (until_brace u) eqn:Hu'; [discriminate|].
    destruct s as [|b s]; [split; intros; discriminate|].
    change (String a u ++ "}") with (String a (u ++ "}")).
    rewrite string_prefix_cons. cbn [until_brace].
    destruct (Ascii.eqb_spec a b) as [<-|Hne].
    + destruct (Ascii.eqb_spec a "}") as [->|_]; [done|].
      rewrite (IH s eq_refl).
      destruct (until_brace s); simpl; split; intros; congruence.
    + split; [intros; discriminate|].
      destruct (Ascii.eqb_spec b "}"); [intros; discriminate|].
      destruct (until_brace s); simpl; intros; congruence.
Qed.

(** The test the code makes on the tag, [startswith('{uri}')], holds
    exactly when the namespace of the tag is [uri]. *)
Lemma startswith_namespace uri t :
  until_brace uri = None ->
  startswith t ("{" ++ uri ++ "}") = true <-> namespace_of t = Some uri.
Proof.
  intros Hu. unfold startswith, namespace_of.
  destruct t as [|c t]; [split; intros; discriminate|].
  change ("{" ++ uri ++ "}") with (String "{" (uri ++ "}")).
  rewrite string_prefix_cons. rewrite (Ascii.eqb_sym "{" c).
  destruct (Ascii.eqb c "{"); [|split; intros; discriminate].
  by apply prefix_until_brace.
Qed.

Lemma never_raises__parsear_cfdi_v3 root archivo :
  never_raises (_parsear_cfdi_v3 CFDIParser_init root archivo).
Proof.
  intros w. unfold_mapping. cbv zeta. rewrite lookup_ns_v3, lookup_tfd.
  run_mapping; eauto.
Qed.

Lemma never_raises__parsear_cfdi_v4 root archivo :
  never_raises (_parsear_cfdi_v4 CFDIParser_init root archivo).
Proof.
  intros w. unfold_mapping. cbv zeta. rewrite lookup_cfdi, lookup_tfd.
  run_mapping; eauto.
Qed.

(** C4: the version is "4.0" when the namespace of the root's tag is the
    v4 URI, else "3.3" when it is the v3 URI, else the value of the root's
    [Version] attribute, "3.3" when there is none; so a well-formed
    document with neither namespace and no [Version] attribute is parsed
    as version 3.3. *)
Theorem detectar_version_by_namespace (root : Element) :
  (namespace_of (tag root) = Some NS_CFDI4 -> _detectar_version root = "4.0") /\
  (namespace_of (tag root) <> Some NS_CFDI4 ->
   namespace_of (tag root) = Some NS_CFDI3 -> _detectar_version root = "3.3") /\
  (namespace_of (tag root) <> Some NS_CFDI4 ->
   namespace_of (tag root) <> Some NS_CFDI3 ->
   _detectar_version root = default "3.3" (attrib root !! "Version")) /\
  (forall ruta w,
     resolve ruta (fs w) = Some (File (WellFormed root)) ->
     namespace_of (tag root) <> Some NS_CFDI4 ->
     namespace_of (tag root) <> Some NS_CFDI3 ->
     attrib root !! "Version" = None ->
     exists r w', parsear_cfdi ruta w = (Ok (Some r), w') /\ version r = Some "3.3").
Proof.
  pose proof (startswith_namespace NS_CFDI4 (tag root) eq_refl) as H4.
  pose proof (startswith_namespace NS_CFDI3 (tag root) eq_refl) as H3.
  change ("{" ++ NS_CFDI4 ++ "}") with "{http://www.sat.gob.mx/cfd/4}" in H4.
  change ("{" ++ NS_CFDI3 ++ "}") with "{http://www.sat.gob.mx/cfd/3}" in H3.
  assert (Hno : namespace_of (tag root) <> Some NS_CFDI4 ->
                namespace_of (tag root) <> Some NS_CFDI3 ->
                _detectar_version root = default "3.3" (attrib root !! "Version")).
  { intros N4 N3. unfold _detectar_version, get_default.
    destruct (startswith (tag root) "{http://www.sat.gob.mx/cfd/4}");
      [by destruct N4; apply H4|].
    destruct (startswith (tag root) "{http://www.sat.gob.mx/cfd/3}");
      [by destruct N3; apply H3|].
    reflexivity. }
  split; [|split; [|split]].
  - intros E4. unfold _detectar_version. by rewrite (proj2 H4 E4).
  - intros N4 E3. unfold _detectar_version.
    destruct (startswith (tag root) "{http://www.sat.gob.mx/cfd/4}");
      [by destruct N4; apply H4|].
    by rewrite (proj2 H3 E3).
  - exact Hno.
  - intros ruta w Hres N4 N3 Hv.
    unfold parsear_cfdi. rewrite (parsear_archivo_root _ _ _ _ Hres).
    unfold dispatch, try_except, bind. rewrite (Hno N4 N3), Hv. simpl.
    destruct (never_raises__parsear_cfdi_v3 root ruta w) as (r & w' & Hr).
    rewrite Hr. exists r, w'. split; [reflexivity|].
    by apply returns__parsear_cfdi_v3 in Hr as (? & _).
Qed.

(** *** The batch driver *)

Lemma parse_value_fs archivo w1 w2 :
  fs w1 = fs w2 -> parse_value archivo w1 = parse_value archivo w2.
Proof.
  intros Hfs. unfold parse_value.
  by destruct (fs_reader_parsear_cfdi archivo w1 w2 Hfs) as [-> _].
Qed.

(** The loop appends, in order, the records of the files that yield one. *)
Lemma procesar_archivos_run archivos cfdis w w0 :
  fs w = fs w0 ->
  fst (procesar_archivos archivos cfdis w)
  = Ok (cfdis ++ omap (fun archivo => parse_value archivo w0) archivos)%list.
Proof.
  revert cfdis w. induction archivos as [|a l IH]; intros cfdis w Hfs.
  - simpl. by rewrite app_nil_r.
  - cbn [procesar_archivos]. unfold bind.
    pose proof (fs_reader_fs (parsear_cfdi a) w (fs_reader_parsear_cfdi a)) as Hfs1.
    destruct (never_raises_parsear_archivo CFDIParser_init a w) as (r & w1 & Hr).
    assert (Hval : parse_value a w0 = r).
    { rewrite <- (parse_value_fs a w w0 Hfs). unfold parse_value, parsear_cfdi.
      by rewrite Hr. }
    unfold parsear_cfdi in Hfs1 |- *. rewrite Hr in Hfs1 |- *.
    simpl in Hfs1. cbn [omap list_omap]. rewrite Hval.
    destruct r as [c|].
    + rewrite (IH (cfdis ++ [c])%list w1) by congruence.
      by rewrite <- app_assoc.
    + apply IH. congruence.
Qed.

(** C8: the batch driver returns the empty list, without raising, when the
    pending directory does not exist; in every case it returns, in listing
    order, the records the extractor yields for the [*.xml] entries
    directly inside the pending directory, leaving out the entries for
    which the extractor returns null. *)
Theorem procesar_pendientes_collects (w : world) :
  (resolve DIR_PENDIENTES (fs w) = None -> procesar_cfdis_pendientes w = (Ok [], w)) /\
  fst (procesar_cfdis_pendientes w)
  = Ok (omap (fun archivo => parse_value archivo w) (xml_files DIR_PENDIENTES (fs w))).
Proof.
  split.
  - intros H. unfold procesar_cfdis_pendientes, bind. cbv zeta.
    rewrite path_exists_run, H.
    by rewrite bool_decide_eq_false_2 by (intros [? ?]; discriminate).
  - unfold procesar_cfdis_pendientes, bind, glob_xml. cbv zeta.
    rewrite path_exists_run. cbv beta iota.
    case_bool_decide as Hex.
    + rewrite (procesar_archivos_run _ _ w w eq_refl). reflexivity.
    + unfold xml_files.
      destruct (resolve DIR_PENDIENTES (fs w)); [destruct Hex; eauto|reflexivity].
Qed.

(** *** Creating directories *)

Lemma lookup_replace_entry c x es d :
  lookup_entry d (replace_entry c x es)
  = if String.eqb c d then (fun _ => x) <$> lookup_entry c es else lookup_entry d es.
Proof.
  induction es as [|[n y] es IH]; simpl.
  - by destruct (String.eqb c d).
  - destruct (String.eqb_spec n c) as [->|Hnc]; simpl.
    + by destruct (String.eqb_spec c d).
    + destruct (String.eqb_spec n d) as [->|Hnd].
      * by destruct (String.eqb_spec c d) as [->|_].
      * exact IH.
Qed.

Lemma replace_entry_id c x es : lookup_entry c es = Some x -> replace_entry c x es = es.
Proof.
  induction es as [|[n y] es IH]; simpl; [done|].
  destruct (String.eqb_spec n c) as [->|Hnc].
  - by intros [= ->].
  - intros H. by rewrite IH.
Qed.

Lemma lookup_entry_app es c x d :
  lookup_entry d (es ++ [(c, x)])
  = match lookup_entry d es with
    | Some y => Some y
    | None => if String.eqb c d then Some x else None
    end.
Proof.
  induction es as [|[n y] es IH]; simpl; [done|].
  by destruct (String.eqb n d).
Qed.


Lemma resolve_fresh_dirs p q :
  match resolve q (fresh_dirs p) with
  | Some x => q `prefix_of` p /\ is_dir (Some x) = true
  | None => True
  end.
Proof.
  revert q. induction p as [|c p IH]; intros [|d q]; simpl.
  - split; [apply prefix_nil|done].
  - done.
  - split; [apply prefix_nil|done].
  - destruct (String.eqb_spec c d) as [->|_]; [|done].
    specialize (IH q). destruct (resolve q (fresh_dirs p)); [|done].
    destruct IH. split; [by apply prefix_cons|done].
Qed.

Lemma resolve_fresh_dirs_self p : is_dir (resolve p (fresh_dirs p)) = true.
Proof.
  induction p as [|c p IH]; simpl; [done|]. by rewrite String.eqb_refl.
Qed.

(** Nothing happens when the directory is there. *)
Lemma mkdir_p_noop p n : is_dir (resolve p n) = true -> mkdir_p p n = inr n.
Proof.
  revert n. induction p as [|c p IH]; intros n H.
  - simpl in *. by destruct n.
  - destruct n as [x|es]; [done|]. simpl in *.
    destruct (lookup_entry c es) as [x|] eqn:Hc; [|done].
    rewrite (IH x H). by rewrite (replace_entry_id _ _ _ Hc).
Qed.

(** After a successful call the directory is there. *)
Lemma mkdir_p_is_dir p n n' : mkdir_p p n = inr n' -> is_dir (resolve p n') = true.
Proof.
  revert n n'. induction p as [|c p IH]; intros n n' H.
  - simpl in *. destruct n; by simplify_eq.
  - destruct n as [x|es]; [done|]. simpl in H.
    destruct (lookup_entry c es) as [x|] eqn:Hc.
    + destruct (mkdir_p p x) as [e|x'] eqn:Hx; simplify_eq.
      simpl. rewrite lookup_replace_entry, String.eqb_refl, Hc. simpl.
      by apply (IH x).
    + simplify_eq. simpl. rewrite lookup_entry_app, Hc, String.eqb_refl.
      apply resolve_fresh_dirs_self.
Qed.

(** It succeeds unless a regular file is in the way. *)
Lemma mkdir_p_succeeds p n :
  (forall q c, q `prefix_of` p -> resolve q n <> Some (File c)) ->
  exists n', mkdir_p p n = inr n'.
Proof.
  revert n. induction p as [|c p IH]; intros n H.
  - destruct n as [x|es]; [|simpl; eauto].
    destruct (H [] x); [apply prefix_nil|done].
  - destruct n as [x|es].
    { destruct (H [] x); [apply prefix_nil|done]. }
    simpl. destruct (lookup_entry c es) as [x|] eqn:Hc; [|eauto].
    destruct (IH x) as [x' Hx'].
    + intros q d Hq. specialize (H (c :: q) d (prefix_cons c _ _ Hq)).
      simpl in H. by rewrite Hc in H.
    + rewrite Hx'. eauto.
Qed.

Lemma grows_by_refl targets n : grows_by targets n n.
Proof.
  intros q. destruct (resolve q n) as [[c|es]|] eqn:H; [done|done|by left].
Qed.


(** A successful call adds directories on the way to [p] and nothing else. *)
Lemma mkdir_p_grows p n n' : mkdir_p p n = inr n' -> grows_by [p] n n'.
Proof.
  revert n n'. induction p as [|c p IH]; intros n n' H.
  - simpl in H. destruct n; simplify_eq. apply grows_by_refl.
  - destruct n as [x|es]; [done|]. simpl in H.
    destruct (lookup_entry c es) as [x|] eqn:Hc.
    + destruct (mkdir_p p x) as [e|x'] eqn:Hx; simplify_eq.
      specialize (IH x x' Hx).
      intros [|d q]; [done|]. simpl. rewrite lookup_replace_entry.
      destruct (String.eqb_spec c d) as [<-|Hne].
      * rewrite Hc. simpl. specialize (IH q).
        destruct (resolve q x) as [[f|es']|]; [done|done|].
        destruct IH as [?|[D (t & Ht & Hq)]]; [by left|]. right. split; [done|].
        apply list_elem_of_singleton in Ht as ->.
        exists (c :: p). split; [by apply list_elem_of_singleton|by apply prefix_cons].
      * destruct (lookup_entry d es) as [y|]; [|by left].
        destruct (resolve q y) as [[f|es']|] eqn:Hy; [done|done|by left].
    + simplify_eq. intros [|d q]; [done|]. simpl. rewrite lookup_entry_app.
      destruct (lookup_entry d es) as [y|] eqn:Hd.
      * destruct (resolve q y) as [[f|es']|] eqn:Hy; [done|done|by left].
      * destruct (String.eqb_spec c d) as [<-|Hne]; [|by left].
        pose proof (resolve_fresh_dirs p q) as Hf.
        destruct (resolve q (fresh_dirs p)) as [x|]; [|by left].
        destruct Hf as [Hq Hx]. right. split; [done|].
        exists (c :: p). split; [by apply list_elem_of_singleton|by apply prefix_cons].
Qed.


Lemma init_directorios_run w :
  init_directorios w =
    match mkdir_p DIR_PROCESADAS (fs w) with
    | inl c => (Raised (mkExn c (os_error_str c DIR_PROCESADAS)), w)
    | inr n1 =>
        match mkdir_p DIR_PENDIENTES n1 with
        | inl c =>
            (Raised (mkExn c (os_error_str c DIR_PENDIENTES)),
             mkWorld n1 (stdout w) (strptime_calls w))
        | inr n2 => (Ok tt, mkWorld n2 (stdout w) (strptime_calls w))
        end
    end.
Proof.
  unfold init_directorios, for_each, bind, mkdir_parents_exist_ok, ret. cbv zeta.
  destruct (mkdir_p DIR_PROCESADAS (fs w)) as [c|n1]; [done|]. simpl.
  by destruct (mkdir_p DIR_PENDIENTES n1) as [c|n2].
Qed.


(** C10: neither the entry point nor the batch driver changes the
    filesystem, whatever they return; [init_directorios] does change it. *)
Theorem only_init_directorios_writes (self : CFDIParser) (ruta : Path) (w : world) :
  fs (snd (parsear_archivo self ruta w)) = fs w /\
  fs (snd (parsear_cfdi ruta w)) = fs w /\
  fs (snd (procesar_cfdis_pendientes w)) = fs w /\
  (exists w0, fs (snd (init_directorios w0)) <> fs w0).
Proof.
  split; [apply fs_reader_fs, fs_reader_parsear_archivo|].
  split; [apply fs_reader_fs, fs_reader_parsear_cfdi|].
  split; [apply fs_reader_fs, fs_reader_procesar_cfdis_pendientes|].
  exists (mkWorld (Dir []) [] []).
  rewrite init_directorios_run. cbn [fs stdout strptime_calls].
  assert (Hnone : forall (p : Path) c d, resolve (p ++ [c; d])%list (Dir []) = None).
  { intros [|x p] c d; reflexivity. }
  destruct (mkdir_p_succeeds DIR_PROCESADAS (Dir [])) as [n1 H1].
  { intros [|x q] c _; [done|]. discriminate. }
  rewrite H1.
  pose proof (mkdir_p_is_dir _ _ _ H1) as D1.
  assert (Hn1 : n1 <> Dir []).
  { intros ->. unfold DIR_PROCESADAS in D1. by rewrite Hnone in D1. }
  destruct (mkdir_p DIR_PENDIENTES n1) as [c|n2] eqn:H2; simpl; [done|].
  intros ->. pose proof (mkdir_p_is_dir _ _ _ H2) as D2.
  unfold DIR_PENDIENTES in D2. by rewrite Hnone in D2.
Qed.

(** *** Numeric coercion and partial success *)

Lemma get_with_attr k v e k' :
  get (with_attr k v e) k' = if String.eqb k k' then Some v else get e k'.
Proof.
  unfold get, with_attr. simpl. destruct (String.eqb_spec k k') as [->|Hk].
  - apply lookup_insert_eq.
  - by apply lookup_insert_ne.
Qed.


Lemma children_with_attr k v e : children (with_attr k v e) = children e.
Proof. reflexivity. Qed.

Lemma descendants_with_attr k v e : descendants (with_attr k v e) = descendants e.
Proof. by destruct e. Qed.







(** *** The two spellings of version 3.3 *)

Lemma Element_ind_all (P : Element -> Prop) :
  (forall t a cs, Forall P cs -> P (Elem t a cs)) -> forall e, P e.
Proof.
  intros H. fix IH 1. intros [t a cs]. apply H.
  induction cs as [|c cs IHcs]; constructor; [apply IH|exact IHcs].
Qed.

Lemma tag_lower_doc pairs e : tag (lower_doc pairs e) = tag e.
Proof. by destruct e. Qed.

Lemma attrib_lower_doc pairs e : attrib (lower_doc pairs e) = lower_attrs pairs (attrib e).
Proof. by destruct e. Qed.

Lemma children_lower_doc pairs e :
  children (lower_doc pairs e) = List.map (lower_doc pairs) (children e).
Proof. by destruct e. Qed.

Lemma descendants_lower_doc pairs e :
  descendants (lower_doc pairs e) = List.map (lower_doc pairs) (descendants e).
Proof.
  induction e as [t a cs IH] using Element_ind_all. simpl.
  induction IH as [|c cs Hc _ IHcs]; simpl; [done|].
  rewrite IHcs, Hc. by rewrite List.map_app.
Qed.

Lemma find_map_tag (g : Element -> Element) t l :
  (forall e, tag (g e) = tag e) ->
  List.find (has_tag t) (List.map g l) = option_map g (List.find (has_tag t) l).
Proof.
  intros Hg. induction l as [|e l IH]; simpl; [done|].
  unfold has_tag at 1 3. rewrite Hg. by destruct (String.eqb (tag e) t).
Qed.

Lemma lookup_rename_attr_other lo pa (m : gmap string string) k :
  k <> lo -> k <> pa -> rename_attr lo pa m !! k = m !! k.
Proof.
  intros Hlo Hpa. unfold rename_attr. destruct (m !! pa); [|done].
  rewrite lookup_insert_ne by done. by rewrite lookup_delete_ne.
Qed.

Lemma lookup_rename_attr_pair lo pa (m : gmap string string) :
  lo <> pa ->
  rename_attr lo pa m !! lo = match m !! pa with Some v => Some v | None => m !! lo end /\
  rename_attr lo pa m !! pa = None.
Proof.
  intros Hne. unfold rename_attr. destruct (m !! pa) eqn:E; [|done]. split.
  - apply lookup_insert_eq.
  - rewrite lookup_insert_ne by done. apply lookup_delete_eq.
Qed.

Lemma lookup_lower_attrs_other pairs (m : gmap string string) k :
  k ∉ names pairs -> lower_attrs pairs m !! k = m !! k.
Proof.
  induction pairs as [|[lo pa] ps IH]; simpl; [done|].
  intros Hk. apply not_elem_of_cons in Hk as [Hlo Hk].
  apply not_elem_of_cons in Hk as [Hpa Hk].
  unfold rename_attr. destruct (lower_attrs ps m !! pa); [|by apply IH].
  rewrite lookup_insert_ne, lookup_delete_ne by done. by apply IH.
Qed.

Lemma elem_of_names pairs lo pa :
  (lo, pa) ∈ pairs -> lo ∈ names pairs /\ pa ∈ names pairs.
Proof.
  induction pairs as [|[a b] ps IH]; intros Hin; [by apply elem_of_nil in Hin|].
  apply elem_of_cons in Hin as [[= -> ->]|Hin]; simpl.
  - split; [apply list_elem_of_here|apply list_elem_of_further, list_elem_of_here].
  - destruct (IH Hin). split; by do 2 apply list_elem_of_further.
Qed.

(** Lookups in the renamed attributes under the two names of a pair, when
    the names are distinct: the PascalCase name is gone, and the
    lowercase-initial name holds what the PascalCase name held. *)
Lemma lookup_lower_attrs_pair pairs (m : gmap string string) lo pa :
  NoDup (names pairs) -> (lo, pa) ∈ pairs ->
  lower_attrs pairs m !! lo = match m !! pa with Some v => Some v | None => m !! lo end /\
  lower_attrs pairs m !! pa = None.
Proof.
  induction pairs as [|[lo' pa'] ps IH]; intros Hnd Hin; [by apply elem_of_nil in Hin|].
  simpl in Hnd.
  pose proof (NoDup_cons_1_1 _ _ Hnd) as Hlo'.
  apply NoDup_cons_1_2 in Hnd.
  pose proof (NoDup_cons_1_1 _ _ Hnd) as Hpa'.
  apply NoDup_cons_1_2 in Hnd.
  apply not_elem_of_cons in Hlo' as [Hne Hlo'].
  simpl.
  apply elem_of_cons in Hin as [[= -> ->]|Hin].
  - destruct (lookup_rename_attr_pair lo' pa' (lower_attrs ps m) Hne) as [-> ->].
    by rewrite !(lookup_lower_attrs_other ps m) by done.
  - destruct (elem_of_names _ _ _ Hin) as [Hlo Hpa].
    rewrite !lookup_rename_attr_other by (intros ->; done). by apply IH.
Qed.

Lemma NoDup_case_pairs : NoDup (names case_pairs).
Proof. apply (bool_decide_unpack _). by vm_compute. Qed.

Lemma get_lower_doc_pair e lo pa :
  (lo, pa) ∈ case_pairs -> get e lo = None ->
  get (lower_doc case_pairs e) lo = get e pa /\ get (lower_doc case_pairs e) pa = None.
Proof.
  unfold get. intros Hin Hlo. rewrite attrib_lower_doc.
  destruct (lookup_lower_attrs_pair _ (attrib e) _ _ NoDup_case_pairs Hin) as [-> ->].
  rewrite Hlo. by destruct (attrib e !! pa).
Qed.

(** A field copied as text: under either spelling the lookup finds the
    same value, when the value is not empty. *)
Lemma py_or_lower_text e lo pa :
  (lo, pa) ∈ case_pairs -> get e lo = None -> get e pa <> Some "" ->
  py_or (get (lower_doc case_pairs e) lo) (get (lower_doc case_pairs e) pa)
  = py_or (get e lo) (get e pa).
Proof.
  intros Hin Hlo Hne. destruct (get_lower_doc_pair e lo pa Hin Hlo) as [-> ->].
  rewrite Hlo. unfold py_or. simpl.
  destruct (get e pa) as [s|]; [|done]. simpl.
  by destruct (String.eqb_spec s "") as [->|_].
Qed.

(** A numeric field: an empty value is null under either spelling. *)
Lemma _convertir_a_float_lower e lo pa :
  (lo, pa) ∈ case_pairs -> get e lo = None ->
  _convertir_a_float
    (py_or (get (lower_doc case_pairs e) lo) (get (lower_doc case_pairs e) pa))
  = _convertir_a_float (py_or (get e lo) (get e pa)).
Proof.
  intros Hin Hlo. destruct (get_lower_doc_pair e lo pa Hin Hlo) as [-> ->].
  rewrite Hlo. unfold py_or. simpl.
  destruct (get e pa) as [s|]; [|done]. simpl.
  destruct (String.eqb s "") eqn:E; simpl; by rewrite ?E.
Qed.

(** A date field: likewise. *)
Lemma _convertir_fecha_lower e lo pa :
  (lo, pa) ∈ case_pairs -> get e lo = None ->
  _convertir_fecha
    (py_or (get (lower_doc case_pairs e) lo) (get (lower_doc case_pairs e) pa))
  = _convertir_fecha (py_or (get e lo) (get e pa)).
Proof.
  intros Hin Hlo. destruct (get_lower_doc_pair e lo pa Hin Hlo) as [-> ->].
  rewrite Hlo. unfold py_or. simpl.
  destruct (get e pa) as [s|]; [|done]. simpl.
  destruct (String.eqb s "") eqn:E; simpl; by rewrite ?E.
Qed.

Lemma get_lower_doc_other e k :
  k ∉ names case_pairs -> get (lower_doc case_pairs e) k = get e k.
Proof. intros Hk. unfold get. rewrite attrib_lower_doc. by apply lookup_lower_attrs_other. Qed.

Lemma not_in_names_case_pairs k :
  bool_decide (k ∈ names case_pairs) = false -> k ∉ names case_pairs.
Proof. apply bool_decide_eq_false. Qed.

Lemma pascal_spelled_root (m : gmap string string) :
  pascal_spelled root_pairs m = true ->
  m !! "folio" = None /\ m !! "serie" = None /\ m !! "total" = None /\
  m !! "subTotal" = None /\ m !! "fecha" = None.
Proof.
  unfold pascal_spelled, root_pairs. cbn [forallb fst]. intros H.
  repeat (apply andb_prop in H as [?%bool_decide_eq_true H]). tauto.
Qed.

Lemma none_empty_two k1 k2 (m : gmap string string) :
  none_empty [k1; k2] m = true -> m !! k1 <> Some "" /\ m !! k2 <> Some "".
Proof.
  unfold none_empty. cbn [forallb]. intros H.
  repeat (apply andb_prop in H as [?%bool_decide_eq_true H]). tauto.
Qed.

Lemma party_ok_facts e :
  party_ok e = true ->
  get e "rfc" = None /\ get e "nombre" = None /\
  get e "Rfc" <> Some "" /\ get e "Nombre" <> Some "".
Proof.
  unfold party_ok, pascal_spelled, party_pairs, get. cbn [forallb fst]. intros H.
  apply andb_prop in H as [H1 H2]. apply none_empty_two in H2 as [? ?].
  repeat (apply andb_prop in H1 as [?%bool_decide_eq_true H1]). tauto.
Qed.

Ltac in_case_pairs := apply list_elem_of_In; simpl; tauto.
Ltac not_a_case_name := apply not_in_names_case_pairs; by vm_compute.

(** Renaming the listed attributes to their lowercase-initial spelling
    does not change what version 3.3 makes of a document. *)
Lemma v3_lower_doc_same self root archivo w :
  v3_pascal_read root = true ->
  _parsear_cfdi_v3 self (lower_doc case_pairs root) archivo w
  = _parsear_cfdi_v3 self root archivo w.
Proof.
  intros Hp. unfold v3_pascal_read, child in Hp.
  apply andb_prop in Hp as [Hp Hre]. apply andb_prop in Hp as [Hp Hem].
  apply andb_prop in Hp as [Hsp Hne].
  apply pascal_spelled_root in Hsp as (Hfo & Hse & Hto & Hsu & Hfe).
  apply none_empty_two in Hne as [HFo HSe].
  unfold_mapping. cbv zeta. rewrite lookup_ns_v3.
  rewrite children_lower_doc, descendants_lower_doc.
  rewrite (_convertir_fecha_lower root "fecha" "Fecha") by (assumption || in_case_pairs).
  rewrite _convertir_fecha_run.
  destruct (namespaces self !! "tfd") as [uri|]; cbv beta iota; [|reflexivity].
  rewrite !find_map_tag by apply tag_lower_doc.
  rewrite (py_or_lower_text root "folio" "Folio") by (assumption || in_case_pairs).
  rewrite (py_or_lower_text root "serie" "Serie") by (assumption || in_case_pairs).
  rewrite (_convertir_a_float_lower root "total" "Total") by (assumption || in_case_pairs).
  rewrite (_convertir_a_float_lower root "subTotal" "SubTotal")
    by (assumption || in_case_pairs).
  unfold get_default. rewrite attrib_lower_doc.
  rewrite (lookup_lower_attrs_other case_pairs (attrib root) "Moneda") by not_a_case_name.
  destruct (List.find (has_tag (clark NS_CFDI3 "Emisor")) (children root))
    as [em|] eqn:Hfem;
  destruct (List.find (has_tag (clark NS_CFDI3 "Receptor")) (children root))
    as [re|] eqn:Hfre;
  destruct (List.find (has_tag (clark uri "TimbreFiscalDigital")) (descendants root))
    as [ti|] eqn:Hti;
  cbn [from_option] in Hem, Hre;
  cbn [option_map]; cbv beta iota;
  rewrite ?_convertir_fecha_run; cbv beta iota;
  try (destruct (party_ok_facts em Hem) as (? & ? & ? & ?);
       rewrite (py_or_lower_text em "rfc" "Rfc") by (assumption || in_case_pairs);
       rewrite (py_or_lower_text em "nombre" "Nombre") by (assumption || in_case_pairs));
  try (destruct (party_ok_facts re Hre) as (? & ? & ? & ?);
       rewrite (py_or_lower_text re "rfc" "Rfc") by (assumption || in_case_pairs);
       rewrite (py_or_lower_text re "nombre" "Nombre") by (assumption || in_case_pairs));
  rewrite ?(get_lower_doc_other ti "UUID") by not_a_case_name;
  rewrite ?(get_lower_doc_other ti "FechaTimbrado") by not_a_case_name;
  reflexivity.
Qed.

(** C2, as amended: version 3.3 looks each of folio, serie, total,
    subTotal, fecha and the issuer's and recipient's rfc and nombre up
    under its lowercase-initial name first and under its PascalCase name
    next, and takes the first that is non-empty; the currency is read
    under [Moneda] only. So a document that spells these attributes
    lowercase-initial maps to the same record as the document that spells
    them PascalCase, when the folio, the series and the rfc and nombre of
    the issuer and of the recipient are not empty strings. *)
Theorem v3_case_fallback (self : CFDIParser) (root : Element) (archivo : Path) (w : world) :
  (forall r w', _parsear_cfdi_v3 self root archivo w = (Ok r, w') ->
     folio r = py_or (get root "folio") (get root "Folio") /\
     serie r = py_or (get root "serie") (get root "Serie") /\
     total r = _convertir_a_float (py_or (get root "total") (get root "Total")) /\
     subtotal r =
       _convertir_a_float (py_or (get root "subTotal") (get root "SubTotal")) /\
     moneda r = Some (get_default root "Moneda" "MXN") /\
     fecha_emision r = fecha_valor (py_or (get root "fecha") (get root "Fecha")) /\
     emisor_rfc r =
       child root NS_CFDI3 "Emisor" ≫= (fun e => py_or (get e "rfc") (get e "Rfc")) /\
     emisor_nombre r =
       child root NS_CFDI3 "Emisor" ≫= (fun e => py_or (get e "nombre") (get e "Nombre")) /\
     receptor_rfc r =
       child root NS_CFDI3 "Receptor" ≫= (fun e => py_or (get e "rfc") (get e "Rfc")) /\
     receptor_nombre r =
       child root NS_CFDI3 "Receptor"
         ≫= (fun e => py_or (get e "nombre") (get e "Nombre"))) /\
  (v3_pascal_read root = true ->
   _parsear_cfdi_v3 self (lower_doc case_pairs root) archivo w
   = _parsear_cfdi_v3 self root archivo w).
Proof.
  split.
  - intros r w' H. apply returns__parsear_cfdi_v3 in H. tauto.
  - apply v3_lower_doc_same.
Qed.

(** *** The summary *)

Lemma resumen_total_lookup c : obtener_resumen_cfdi c !! "total" = Some (resumen_total c).
Proof.
  unfold obtener_resumen_cfdi.
  rewrite !lookup_insert_ne by done. apply lookup_insert_eq.
Qed.

(** The ['total'] entry is null exactly for a null total and for a total
    that is a zero. *)
Lemma resumen_total_None c :
  resumen_total c = None <-> total c = None \/ exists s, total c = Some (S754_zero s).
Proof.
  unfold resumen_total. destruct (total c) as [[s|s| |s m e]|]; simpl; split;
    try done; eauto; intros [H|[s' H]]; discriminate.
Qed.

(** C1, at the input where the code departs from it: for a record whose
    total is zero the ['total'] entry of the summary is null, although the
    total is not. *)
Theorem resumen_total_of_zero (c : CFDIData) (s : bool) :
  total (set_total (Some (S754_zero s)) c) <> None /\
  obtener_resumen_cfdi (set_total (Some (S754_zero s)) c) !! "total" = Some None.
Proof.
  split; [done|]. by rewrite resumen_total_lookup.
Qed.

(** ** Further properties of the extractor *)

(** A record comes from a well-formed file, through the field mapping of
    its version. *)
Lemma parsear_archivo_Some_inv self ruta w r w' :
  parsear_archivo self ruta w = (Ok (Some r), w') ->
  exists root,
    resolve ruta (fs w) = Some (File (WellFormed root)) /\
    dispatch self root ruta w = (Ok r, w').
Proof.
  intros H.
  destruct (resolve ruta (fs w)) as [[[msg|root]|es]|] eqn:Hres.
  - rewrite (parsear_archivo_malformed _ _ _ _ Hres) in H. discriminate H.
  - exists root. split; [done|].
    rewrite (parsear_archivo_root _ _ _ _ Hres) in H.
    unfold try_except, bind in H.
    destruct (dispatch self root ruta w) as [[r0|e] w0]; [|discriminate H].
    unfold ret in H. by simplify_eq.
  - unfold parsear_archivo, parsear_archivo_try, try_except, bind, ET_parse in H.
    rewrite path_exists_run in H. cbv beta iota in H. rewrite Hres in H.
    rewrite bool_decide_eq_true_2 in H by eauto.
    cbv beta iota delta [negb] in H. rewrite Hres in H. discriminate H.
  - rewrite (parsear_archivo_missing _ _ _ Hres) in H. discriminate H.
Qed.

Lemma dispatch_inv self root ruta w r w' :
  dispatch self root ruta w = (Ok r, w') ->
  (_detectar_version root = "4.0" /\ _parsear_cfdi_v4 self root ruta w = (Ok r, w')) \/
  (_detectar_version root = "3.3" /\ _parsear_cfdi_v3 self root ruta w = (Ok r, w')).
Proof.
  unfold dispatch.
  destruct (String.eqb_spec (_detectar_version root) "4.0") as [E4|_]; [by left|].
  destruct (String.eqb_spec (_detectar_version root) "3.3") as [E3|_]; [by right|].
  discriminate.
Qed.

(** The stamp fields of both field mappings. *)
Lemma returns_timbre_v4 root archivo :
  returns (_parsear_cfdi_v4 CFDIParser_init root archivo)
    (fun r =>
       uuid r = timbre root ≫= (fun c => get c "UUID") /\
       fecha_timbrado r = timbre root ≫= (fun c => fecha_valor (get c "FechaTimbrado"))).
Proof.
  intros w r w'. unfold_mapping. cbv zeta. rewrite lookup_cfdi, lookup_tfd.
  unfold timbre. run_mapping; intros H; simplify_eq; done.
Qed.

Lemma returns_timbre_v3 root archivo :
  returns (_parsear_cfdi_v3 CFDIParser_init root archivo)
    (fun r =>
       uuid r = timbre root ≫= (fun c => get c "UUID") /\
       fecha_timbrado r = timbre root ≫= (fun c => fecha_valor (get c "FechaTimbrado"))).
Proof.
  intros w r w'. unfold_mapping. cbv zeta. rewrite lookup_ns_v3, lookup_tfd.
  unfold timbre. run_mapping; intros H; simplify_eq; done.
Qed.

Lemma find_none_Forall t l :
  Forall (fun d => tag d <> t) l -> List.find (has_tag t) l = None.
Proof.
  induction 1 as [|d l Hd _ IH]; simpl; [done|].
  unfold has_tag at 1. by destruct (String.eqb_spec (tag d) t).
Qed.

(** X1: the stamp of a record is read from the first element beneath the root
    that carries the stamp's tag, at any depth: its [UUID] and its
    [FechaTimbrado]. Without such an element both fields are null, and
    the record is returned all the same. *)
Theorem stamp_from_first_descendant (ruta : Path) (w : world) (root : Element)
    (r : CFDIData) (w' : world) :
  resolve ruta (fs w) = Some (File (WellFormed root)) ->
  parsear_cfdi ruta w = (Ok (Some r), w') ->
  uuid r = timbre root ≫= (fun c => get c "UUID") /\
  fecha_timbrado r = timbre root ≫= (fun c => fecha_valor (get c "FechaTimbrado")) /\
  (Forall (fun d => tag d <> clark NS_TFD "TimbreFiscalDigital") (descendants root) ->
   uuid r = None /\ fecha_timbrado r = None).
Proof.
  intros Hres H. apply parsear_archivo_Some_inv in H as (root' & Hres' & Hd).
  rewrite Hres in Hres'. simplify_eq.
  assert (Hr : uuid r = timbre root' ≫= (fun c => get c "UUID") /\
               fecha_timbrado r
               = timbre root' ≫= (fun c => fecha_valor (get c "FechaTimbrado"))).
  { apply dispatch_inv in Hd as [[_ Hd]|[_ Hd]].
    - by apply returns_timbre_v4 in Hd.
    - by apply returns_timbre_v3 in Hd. }
  destruct Hr as [Hu Hf]. split; [done|]. split; [done|].
  intros Hnone. rewrite Hu, Hf. unfold timbre. by rewrite (find_none_Forall _ _ Hnone).
Qed.

(** Version 4.0 with the stock parser: every field but the stamp's. *)
Lemma returns_emisor_v4 root archivo :
  returns (_parsear_cfdi_v4 CFDIParser_init root archivo)
    (fun r =>
       emisor_rfc r = child root NS_CFDI4 "Emisor" ≫= (fun e => get e "Rfc") /\
       emisor_nombre r = child root NS_CFDI4 "Emisor" ≫= (fun e => get e "Nombre") /\
       emisor_regimen r = child root NS_CFDI4 "Emisor" ≫= (fun e => get e "RegimenFiscal") /\
       receptor_rfc r = child root NS_CFDI4 "Receptor" ≫= (fun e => get e "Rfc") /\
       receptor_nombre r = child root NS_CFDI4 "Receptor" ≫= (fun e => get e "Nombre")).
Proof.
  intros w r w'. unfold_mapping. cbv zeta. rewrite lookup_cfdi, lookup_tfd.
  unfold child. run_mapping; intros H; simplify_eq; done.
Qed.

(** X2: in a document detected as version 4.0 every attribute is read under
    its PascalCase name only: the issuer and the recipient are the first
    children tagged [Emisor] and [Receptor] in the v4 namespace, the
    issuer's regime is read, and the currency defaults to MXN. *)
Theorem v4_field_mapping (ruta : Path) (w : world) (root : Element)
    (r : CFDIData) (w' : world) :
  resolve ruta (fs w) = Some (File (WellFormed root)) ->
  _detectar_version root = "4.0" ->
  parsear_cfdi ruta w = (Ok (Some r), w') ->
  folio r = get root "Folio" /\
  serie r = get root "Serie" /\
  total r = _convertir_a_float (get root "Total") /\
  subtotal r = _convertir_a_float (get root "SubTotal") /\
  moneda r = Some (get_default root "Moneda" "MXN") /\
  fecha_emision r = fecha_valor (get root "Fecha") /\
  emisor_rfc r = child root NS_CFDI4 "Emisor" ≫= (fun e => get e "Rfc") /\
  emisor_nombre r = child root NS_CFDI4 "Emisor" ≫= (fun e => get e "Nombre") /\
  emisor_regimen r = child root NS_CFDI4 "Emisor" ≫= (fun e => get e "RegimenFiscal") /\
  receptor_rfc r = child root NS_CFDI4 "Receptor" ≫= (fun e => get e "Rfc") /\
  receptor_nombre r = child root NS_CFDI4 "Receptor" ≫= (fun e => get e "Nombre").
Proof.
  intros Hres Hv H. apply parsear_archivo_Some_inv in H as (root' & Hres' & Hd).
  rewrite Hres in Hres'. simplify_eq.
  apply dispatch_inv in Hd as [[_ Hd]|[Hv3 _]]; [|rewrite Hv in Hv3; discriminate].
  pose proof (returns__parsear_cfdi_v4 _ _ _ _ _ _ Hd) as (_ & _ & ? & ? & ? & ? & ? & ?).
  pose proof (returns_emisor_v4 _ _ _ _ _ Hd) as (? & ? & ? & ? & ?).
  repeat split; assumption.
Qed.

Lemma eqb_not_in k (l : list string) :
  k ∉ l -> Forall (fun x => String.eqb x k = false) l.
Proof.
  induction l as [|x l IH]; intros Hk; constructor.
  - apply not_elem_of_cons in Hk as [Hne _]. by destruct (String.eqb_spec x k).
  - apply IH. by apply not_elem_of_cons in Hk as [_ Hk].
Qed.

(** X3: version 4.0 is case-sensitive: an attribute of the root under any name
    but the six it reads, a lowercase-initial spelling included, changes
    nothing. *)
Theorem v4_ignores_other_attributes (self : CFDIParser) (k v : string)
    (root : Element) (archivo : Path) (w : world) :
  k ∉ v4_root_attrs ->
  _parsear_cfdi_v4 self (with_attr k v root) archivo w
  = _parsear_cfdi_v4 self root archivo w.
Proof.
  intros Hk. apply eqb_not_in in Hk. unfold v4_root_attrs in Hk.
  repeat match goal with
         | H : Forall _ (_ :: _) |- _ =>
             let E := fresh "E" in
             inversion H as [|? ? E ?]; subst; clear H; rewrite String.eqb_sym in E
         end.
  unfold_mapping. cbv zeta.
  rewrite !children_with_attr, !descendants_with_attr.
  rewrite !get_with_attr.
  unfold get_default, with_attr. cbn [attrib].
  assert (Hm : (<[k:=v]> (attrib root) : gmap string string) !! "Moneda"
               = attrib root !! "Moneda").
  { apply lookup_insert_ne. intros ->. by rewrite String.eqb_refl in *. }
  rewrite Hm.
  repeat match goal with
         | E : String.eqb k _ = false |- _ => rewrite E; clear E
         end.
  reflexivity.
Qed.

Lemma returns_regimen_v3 self root archivo :
  returns (_parsear_cfdi_v3 self root archivo) (fun r => emisor_regimen r = None).
Proof.
  intros w r w'. unfold_mapping. cbv zeta. rewrite lookup_ns_v3.
  run_mapping; intros H; simplify_eq; done.
Qed.

(** X4: a record of version 3.3 never has an issuer's regime, whatever the
    document holds: the field is read by version 4.0 only. *)
Theorem v3_has_no_regimen (self : CFDIParser) (ruta : Path) (w : world)
    (r : CFDIData) (w' : world) :
  parsear_archivo self ruta w = (Ok (Some r), w') ->
  version r = Some "3.3" ->
  emisor_regimen r = None.
Proof.
  intros H Hv. apply parsear_archivo_Some_inv in H as (root & _ & Hd).
  apply dispatch_inv in Hd as [[_ Hd]|[_ Hd]].
  - apply returns__parsear_cfdi_v4 in Hd as (Hv4 & _). rewrite Hv in Hv4. discriminate.
  - by apply returns_regimen_v3 in Hd.
Qed.

(** X5: every record names the file it comes from, by the last component of
    the path, and has a currency: the document's [Moneda], or MXN. *)
Theorem record_names_file_and_currency (self : CFDIParser) (ruta : Path) (w : world)
    (r : CFDIData) (w' : world) :
  parsear_archivo self ruta w = (Ok (Some r), w') ->
  archivo_origen r = Some (path_name ruta) /\
  exists root,
    resolve ruta (fs w) = Some (File (WellFormed root)) /\
    moneda r = Some (default "MXN" (attrib root !! "Moneda")).
Proof.
  intros H. apply parsear_archivo_Some_inv in H as (root & Hres & Hd).
  apply dispatch_inv in Hd as [[_ Hd]|[_ Hd]].
  - apply returns__parsear_cfdi_v4 in Hd as (_ & Ha & _ & _ & _ & _ & Hm & _). eauto.
  - apply returns__parsear_cfdi_v3 in Hd as (_ & Ha & _ & _ & _ & _ & Hm & _). eauto.
Qed.

Lemma append_cons x (a b : string) : (String x a ++ b = String x (a ++ b))%string.
Proof. reflexivity. Qed.

Lemma string_app_assoc (a b c : string) : ((a ++ b) ++ c = a ++ b ++ c)%string.
Proof.
  induction a as [|x a IH]; [reflexivity|]. rewrite !append_cons. by f_equal.
Qed.

Lemma prefix_append (a b : string) : String.prefix a (a ++ b) = true.
Proof.
  induction a as [|x a IH]; [by destruct b|].
  by rewrite append_cons, string_prefix_cons, Ascii.eqb_refl.
Qed.

(** X6: a path that leads to a directory is skipped like any failure: one
    line is printed and null is returned. *)
Theorem parse_directory_is_skipped (self : CFDIParser) (ruta : Path) (w : world)
    (es : list (string * node)) :
  resolve ruta (fs w) = Some (Dir es) ->
  exists line,
    parsear_archivo self ruta w = (Ok None, emit w [line] []) /\
    startswith line ("Error al parsear CFDI " ++ path_str ruta ++ ": ") = true.
Proof.
  intros H. unfold parsear_archivo, parsear_archivo_try, try_except, bind, ET_parse.
  rewrite path_exists_run. cbv beta iota. rewrite H.
  rewrite bool_decide_eq_true_2 by eauto. cbv beta iota delta [negb]. rewrite H.
  eexists. split.
  - destruct w; unfold emit, print, ret, error_line; simpl. by rewrite app_nil_r.
  - unfold startswith. cbn [exn_str].
    rewrite <- (string_app_assoc (path_str ruta) ": ").
    rewrite <- (string_app_assoc "Error al parsear CFDI " (path_str ruta ++ ": ")).
    apply prefix_append.
Qed.

(** X7: a well-formed document of a supported version always yields a record:
    no attribute and no element is required. *)
Theorem parse_well_formed_succeeds (ruta : Path) (w : world) (root : Element) :
  resolve ruta (fs w) = Some (File (WellFormed root)) ->
  _detectar_version root = "4.0" \/ _detectar_version root = "3.3" ->
  exists r w', parsear_cfdi ruta w = (Ok (Some r), w').
Proof.
  intros Hres Hv. unfold parsear_cfdi. rewrite (parsear_archivo_root _ _ _ _ Hres).
  unfold dispatch, try_except, bind.
  destruct Hv as [-> | ->]; simpl.
  - destruct (never_raises__parsear_cfdi_v4 root ruta w) as (r & w' & Hr).
    rewrite Hr. eauto.
  - destruct (never_raises__parsear_cfdi_v3 root ruta w) as (r & w' & Hr).
    rewrite Hr. eauto.
Qed.

(** X8: a document that is one element without attributes and without
    children parses whatever its tag: to version 4.0 in the v4 namespace
    and to 3.3 otherwise, with the file name, the currency MXN and every
    other field null; nothing is printed. *)
Theorem parse_bare_root (t : string) (ruta : Path) (w : world) :
  resolve ruta (fs w) = Some (File (WellFormed (Elem t ∅ []))) ->
  parsear_cfdi ruta w
  = (Ok (Some (mkCFDIData None None None None None (Some "MXN")
                 None None None None None None None
                 (Some (if startswith t "{http://www.sat.gob.mx/cfd/4}"
                        then "4.0" else "3.3"))
                 (Some (path_name ruta)))), w).
Proof.
  intros Hres. unfold parsear_cfdi. rewrite (parsear_archivo_root _ _ _ _ Hres).
  unfold dispatch, try_except, bind, _detectar_version, get_default. cbn [tag attrib].
  rewrite lookup_empty. cbn [default].
  destruct (startswith t "{http://www.sat.gob.mx/cfd/4}").
  - cbn [String.eqb Ascii.eqb Bool.eqb].
    unfold_mapping. cbv zeta. rewrite lookup_cfdi, lookup_tfd.
    unfold get, get_default. cbn [attrib children descendants flat_map List.find].
    rewrite !lookup_empty. rewrite _convertir_fecha_run.
    cbn. by rewrite emit_nil.
  - assert (Hv : (if startswith t "{http://www.sat.gob.mx/cfd/3}" then "3.3" else "3.3")
                 = "3.3") by (by destruct (startswith t _)).
    rewrite Hv. cbn [String.eqb Ascii.eqb Bool.eqb].
    unfold_mapping. cbv zeta. rewrite lookup_ns_v3, lookup_tfd.
    unfold get, get_default. cbn [attrib children descendants flat_map List.find].
    rewrite !lookup_empty. rewrite _convertir_fecha_run.
    cbn. by rewrite emit_nil.
Qed.

(** ** Further properties of the batch driver *)

(** The records of the batch: the non-null results over the entries that
    match, in listing order. *)
Lemma procesar_cfdis_pendientes_value w :
  fst (procesar_cfdis_pendientes w)
  = Ok (omap (fun archivo => parse_value archivo w) (xml_files DIR_PENDIENTES (fs w))).
Proof.
  unfold procesar_cfdis_pendientes, bind, glob_xml. cbv zeta.
  rewrite path_exists_run. cbv beta iota.
  case_bool_decide as Hex.
  - rewrite (procesar_archivos_run _ _ w w eq_refl). reflexivity.
  - unfold xml_files.
    destruct (resolve DIR_PENDIENTES (fs w)); [destruct Hex; eauto|reflexivity].
Qed.

Lemma parse_value_Some archivo w r :
  parse_value archivo w = Some r ->
  exists w', parsear_cfdi archivo w = (Ok (Some r), w').
Proof.
  unfold parse_value. destruct (parsear_cfdi archivo w) as [[o|e] w'] eqn:H; simpl.
  - intros ->. eauto.
  - discriminate.
Qed.

Lemma elem_of_xml_files dir n archivo :
  archivo ∈ xml_files dir n ->
  exists name, archivo = (dir ++ [name])%list /\ fnmatch_xml name = true /\
               is_Some (resolve archivo n).
Proof.
  unfold xml_files. destruct (resolve dir n) as [[c|es]|] eqn:Hdir;
    try (intros H; by apply elem_of_nil in H).
  intros H. apply list_elem_of_In, List.in_map_iff in H as ([name x] & <- & Hin).
  apply List.filter_In in Hin as [Hin Hm]. simpl in *.
  exists name. split; [done|]. split; [done|].
  assert (Hl : is_Some (lookup_entry name es)).
  { clear -Hin. induction es as [|[n0 y] es IH]; [done|]. simpl.
    destruct (String.eqb_spec n0 name) as [->|Hne]; [eauto|].
    destruct Hin as [[= -> ->]|Hin]; [done|by apply IH]. }
  destruct Hl as [y Hy].
  assert (Hres : forall p m, resolve p m = Some (Dir es) ->
                             resolve (p ++ [name])%list m = Some y).
  { clear -Hy. induction p as [|c p IH]; intros m Hm; simpl in *.
    - simplify_eq. by rewrite Hy.
    - destruct m as [?|es']; [done|].
      destruct (lookup_entry c es'); [by apply IH|done]. }
  rewrite (Hres _ _ Hdir). eauto.
Qed.

(** X9: every record of the batch has a supported version and carries the
    name of an entry of the pending directory that matches [*.xml]; there
    are no more records than such entries. *)
Theorem batch_records_come_from_xml_entries (w : world) (l : list CFDIData) (w' : world) :
  procesar_cfdis_pendientes w = (Ok l, w') ->
  Forall (fun r =>
            (version r = Some "4.0" \/ version r = Some "3.3") /\
            exists name,
              archivo_origen r = Some name /\ fnmatch_xml name = true /\
              is_Some (resolve (DIR_PENDIENTES ++ [name])%list (fs w))) l /\
  (length l <= length (xml_files DIR_PENDIENTES (fs w)))%nat.
Proof.
  intros H. pose proof (procesar_cfdis_pendientes_value w) as Hv.
  rewrite H in Hv. simpl in Hv. injection Hv as ->. split.
  - apply List.Forall_forall. intros r Hr. apply list_elem_of_In in Hr.
    apply list_elem_of_omap in Hr as (archivo & Hin & Hval).
    apply parse_value_Some in Hval as [w1 Hrun].
    apply elem_of_xml_files in Hin as (name & -> & Hm & Hex).
    unfold parsear_cfdi in Hrun.
    pose proof (parsear_archivo_Some_inv _ _ _ _ _ Hrun) as (root & _ & Hd).
    apply returns_dispatch in Hd as [_ Hver].
    apply parsear_archivo_Some_inv in Hrun as (root' & _ & Hd').
    split; [done|]. exists name.
    assert (Ha : archivo_origen r = Some (path_name (DIR_PENDIENTES ++ [name])%list)).
    { apply dispatch_inv in Hd' as [[_ Hd']|[_ Hd']].
      - by apply returns__parsear_cfdi_v4 in Hd' as (_ & Ha & _).
      - by apply returns__parsear_cfdi_v3 in Hd' as (_ & Ha & _). }
    unfold path_name in Ha. rewrite List.last_last in Ha. done.
  - generalize (xml_files DIR_PENDIENTES (fs w)). intros xs.
    induction xs as [|x xs IH]; [done|]. cbn [omap list_omap].
    fold (omap (fun archivo => parse_value archivo w) xs).
    destruct (parse_value x w); cbn [length]; lia.
Qed.

(** X10: running the batch a second time returns the same records: nothing is
    consumed from the pending directory, and what has been printed does
    not matter. *)
Theorem batch_twice_same (w : world) :
  fst (procesar_cfdis_pendientes (snd (procesar_cfdis_pendientes w)))
  = fst (procesar_cfdis_pendientes w).
Proof.
  apply fs_reader_procesar_cfdis_pendientes.
  apply fs_reader_fs, fs_reader_procesar_cfdis_pendientes.
Qed.

(** X11: when the pending path is a regular file the batch is empty, without
    error and without output. *)
Theorem batch_on_regular_file (w : world) (c : xml_content) :
  resolve DIR_PENDIENTES (fs w) = Some (File c) ->
  procesar_cfdis_pendientes w = (Ok [], w).
Proof.
  intros H. unfold procesar_cfdis_pendientes, bind, glob_xml. cbv zeta.
  rewrite path_exists_run. cbv beta iota. rewrite H.
  rewrite bool_decide_eq_true_2 by eauto. cbv beta iota. by rewrite H.
Qed.

(** ** Further properties of the directories *)

Lemma resolve_fresh_dirs_empty p : resolve p (fresh_dirs p) = Some (Dir []).
Proof. induction p as [|c p IH]; simpl; [done|]. by rewrite String.eqb_refl. Qed.

(** A successful call leaves every path alone that is not on the way to
    the directory. *)
Lemma mkdir_p_other p n n' q :
  mkdir_p p n = inr n' -> ~ q `prefix_of` p -> resolve q n' = resolve q n.
Proof.
  revert n n' q. induction p as [|c p IH]; intros n n' q H Hq.
  - simpl in H. destruct n; by simplify_eq.
  - destruct n as [x|es]; [done|]. simpl in H.
    destruct q as [|d q]; [destruct Hq; apply prefix_nil|].
    destruct (lookup_entry c es) as [x|] eqn:Hc.
    + destruct (mkdir_p p x) as [e|x'] eqn:Hx; simplify_eq.
      simpl. rewrite lookup_replace_entry.
      destruct (String.eqb_spec c d) as [<-|Hne]; [|done].
      rewrite Hc. simpl. apply (IH x x' q Hx).
      intros Hp. apply Hq. by apply prefix_cons.
    + simplify_eq. simpl. rewrite lookup_entry_app.
      destruct (lookup_entry d es) as [y|] eqn:Hd; [done|].
      destruct (String.eqb_spec c d) as [<-|Hne]; [|done].
      pose proof (resolve_fresh_dirs p q) as Hf.
      destruct (resolve q (fresh_dirs p)); [|done].
      destruct Hf as [Hp _]. destruct Hq. by apply prefix_cons.
Qed.

(** A directory that was missing is empty once created. *)
Lemma mkdir_p_fresh p n n' :
  mkdir_p p n = inr n' -> resolve p n = None -> resolve p n' = Some (Dir []).
Proof.
  revert n n'. induction p as [|c p IH]; intros n n' H Hnone; [done|].
  destruct n as [x|es]; [done|]. simpl in *.
  destruct (lookup_entry c es) as [x|] eqn:Hc.
  - destruct (mkdir_p p x) as [e|x'] eqn:Hx; simplify_eq.
    simpl. rewrite lookup_replace_entry, String.eqb_refl, Hc. simpl. by apply (IH x).
  - simplify_eq. simpl. rewrite lookup_entry_app, Hc, String.eqb_refl.
    apply resolve_fresh_dirs_empty.
Qed.

(** A regular file on the way makes the call fail: [FileExistsError] when
    it stands at the path itself, [NotADirectoryError] when it stands
    above. *)
Lemma mkdir_p_blocked p n q c :
  q `prefix_of` p -> resolve q n = Some (File c) ->
  mkdir_p p n = inl (if bool_decide (q = p) then FileExistsError else NotADirectoryError).
Proof.
  revert p n. induction q as [|d q IH]; intros p n Hq Hres.
  - simpl in Hres. simplify_eq. by destruct p.
  - destruct p as [|c' p]; [by apply prefix_nil_not in Hq|].
    pose proof (prefix_cons_inv_1 _ _ _ _ Hq) as ->.
    apply prefix_cons_inv_2 in Hq.
    destruct n as [x|es]; [done|]. simpl in *.
    destruct (lookup_entry c' es) as [x|]; [|done].
    rewrite (IH p x Hq Hres).
    destruct (decide (q = p)) as [->|Hne].
    + by rewrite !bool_decide_eq_true_2.
    + rewrite !bool_decide_eq_false_2; [done| |done]. congruence.
Qed.

Lemma pendientes_not_prefix_procesadas (k : Path) :
  ~ (DIR_PENDIENTES ++ k)%list `prefix_of` DIR_PROCESADAS.
Proof.
  unfold DIR_PENDIENTES, DIR_PROCESADAS. rewrite <- app_assoc. intros H.
  apply prefix_app_inv in H. simpl in H.
  apply prefix_cons_inv_2 in H. apply prefix_cons_inv_1 in H. discriminate H.
Qed.

(** X12: [init_directorios] fails when a regular file stands where the
    processed directory or one of its parents should be, and changes
    nothing then. It is not atomic: when only the pending path is taken
    by a regular file, it fails after it has created the processed
    directory. *)
Theorem init_directorios_blocked (w : world) :
  (forall q c,
     q `prefix_of` DIR_PROCESADAS -> resolve q (fs w) = Some (File c) ->
     exists e,
       init_directorios w = (Raised e, w) /\
       exn_cls e = if bool_decide (q = DIR_PROCESADAS)
                   then FileExistsError else NotADirectoryError) /\
  (forall c,
     resolve DIR_PENDIENTES (fs w) = Some (File c) ->
     (forall q c', q `prefix_of` DIR_PROCESADAS -> resolve q (fs w) <> Some (File c')) ->
     exists e w',
       init_directorios w = (Raised e, w') /\
       exn_cls e = FileExistsError /\
       is_dir (resolve DIR_PROCESADAS (fs w')) = true /\
       resolve DIR_PENDIENTES (fs w') = Some (File c)).
Proof.
  rewrite init_directorios_run. split.
  - intros q c Hq Hres. rewrite (mkdir_p_blocked _ _ _ _ Hq Hres). eauto.
  - intros c Hres Hfree.
    destruct (mkdir_p_succeeds DIR_PROCESADAS (fs w) Hfree) as [n1 H1]. rewrite H1.
    assert (Hres1 : resolve DIR_PENDIENTES n1 = Some (File c)).
    { pose proof (mkdir_p_grows _ _ _ H1 DIR_PENDIENTES) as G. by rewrite Hres in G. }
    rewrite (mkdir_p_blocked DIR_PENDIENTES n1 DIR_PENDIENTES c); [|done|done].
    rewrite bool_decide_eq_true_2 by done.
    eexists _, _. split; [reflexivity|]. split; [done|]. simpl.
    split; [by apply (mkdir_p_is_dir _ _ _ H1)|done].
Qed.

(** X13: after [init_directorios] has created the pending directory, the batch
    over it is empty. *)
Theorem batch_after_fresh_init (w w' : world) :
  resolve DIR_PENDIENTES (fs w) = None ->
  init_directorios w = (Ok tt, w') ->
  procesar_cfdis_pendientes w' = (Ok [], w').
Proof.
  intros Hnone H. rewrite init_directorios_run in H.
  destruct (mkdir_p DIR_PROCESADAS (fs w)) as [c|n1] eqn:H1; [discriminate|].
  destruct (mkdir_p DIR_PENDIENTES n1) as [c|n2] eqn:H2; [discriminate|].
  simplify_eq.
  assert (Hn1 : resolve DIR_PENDIENTES n1 = None).
  { rewrite <- Hnone. apply (mkdir_p_other _ _ _ _ H1).
    pose proof (pendientes_not_prefix_procesadas []) as Hp. by rewrite app_nil_r in Hp. }
  pose proof (mkdir_p_fresh _ _ _ H2 Hn1) as Hn2.
  unfold procesar_cfdis_pendientes, bind, glob_xml. cbv zeta.
  rewrite path_exists_run. cbv beta iota. cbn [fs]. rewrite Hn2.
  rewrite bool_decide_eq_true_2 by eauto. cbv beta iota. cbn [fs]. by rewrite Hn2.
Qed.

(** *** Computations that do not look at the world *)

Lemma world_blind_ret {A} (a : A) : world_blind (ret a).
Proof. by intros w1 w2. Qed.

Lemma world_blind_raise {A} (e : exn) : world_blind (@raise A e).
Proof. by intros w1 w2. Qed.

Lemma world_blind_bind {A B} (m : M A) (k : A -> M B) :
  world_blind m -> (forall a, world_blind (k a)) -> world_blind (bind m k).
Proof.
  intros Hm Hk w1 w2. unfold bind. specialize (Hm w1 w2).
  destruct (m w1) as [o1 w1'], (m w2) as [o2 w2']; simpl in *. subst o2.
  destruct o1 as [a|e]; [apply Hk|done].
Qed.

Lemma world_blind_print line : world_blind (print line).
Proof. by intros w1 w2. Qed.

Lemma world_blind_strptime_call s f : world_blind (strptime_call s f).
Proof. by intros w1 w2. Qed.

Lemma world_blind_find e prefix local ns : world_blind (find e prefix local ns).
Proof. unfold find. destruct (ns !! prefix); [apply world_blind_ret|apply world_blind_raise]. Qed.

Lemma world_blind_find_descendant e prefix local ns :
  world_blind (find_descendant e prefix local ns).
Proof.
  unfold find_descendant.
  destruct (ns !! prefix); [apply world_blind_ret|apply world_blind_raise].
Qed.

Create HintDb world_blind.
#[local] Hint Resolve world_blind_ret world_blind_raise world_blind_print
  world_blind_strptime_call world_blind_find world_blind_find_descendant : world_blind.

Ltac world_blind_step :=
  match goal with
  | |- world_blind (bind _ _) => apply world_blind_bind; [|intros ?]
  | |- world_blind (match ?x with _ => _ end) => destruct x
  | |- world_blind _ => solve [auto with world_blind]
  end.

Lemma world_blind_probar_formatos s l : world_blind (probar_formatos s l).
Proof. induction l as [|f l IH]; simpl; repeat world_blind_step. Qed.

Lemma world_blind__convertir_fecha o : world_blind (_convertir_fecha o).
Proof.
  unfold _convertir_fecha. repeat world_blind_step. apply world_blind_probar_formatos.
Qed.
#[local] Hint Resolve world_blind__convertir_fecha : world_blind.

Lemma world_blind_dispatch self root ruta : world_blind (dispatch self root ruta).
Proof.
  unfold dispatch, _parsear_cfdi_v4, _parsear_cfdi_v3, _extraer_timbre_fiscal. cbv zeta.
  repeat world_blind_step.
Qed.

Lemma parse_directory_skips self ruta w es :
  resolve ruta (fs w) = Some (Dir es) ->
  exists w', parsear_archivo self ruta w = (Ok None, w').
Proof.
  intros H. unfold parsear_archivo, parsear_archivo_try, try_except, bind, ET_parse.
  rewrite path_exists_run. cbv beta iota. rewrite H.
  rewrite bool_decide_eq_true_2 by eauto. cbv beta iota delta [negb]. rewrite H.
  eauto.
Qed.

(** What the extractor returns for a path depends on what the path leads
    to, and on nothing else. *)
Lemma parse_value_resolve archivo w1 w2 :
  resolve archivo (fs w1) = resolve archivo (fs w2) ->
  parse_value archivo w1 = parse_value archivo w2.
Proof.
  intros Hres. unfold parse_value, parsear_cfdi.
  destruct (resolve archivo (fs w1)) as [[[msg|root]|es]|] eqn:H1; symmetry in Hres.
  - by rewrite (parsear_archivo_malformed _ _ _ _ H1),
               (parsear_archivo_malformed _ _ _ _ Hres).
  - rewrite (parsear_archivo_root _ _ _ _ H1), (parsear_archivo_root _ _ _ _ Hres).
    unfold try_except, bind.
    pose proof (world_blind_dispatch CFDIParser_init root archivo w1 w2) as Hd.
    destruct (dispatch CFDIParser_init root archivo w1) as [o1 w1'],
             (dispatch CFDIParser_init root archivo w2) as [o2 w2']; simpl in Hd.
    subst o2. by destruct o1.
  - destruct (parse_directory_skips CFDIParser_init _ _ _ H1) as [l1 ->].
    by destruct (parse_directory_skips CFDIParser_init _ _ _ Hres) as [l2 ->].
  - by rewrite (parsear_archivo_missing _ _ _ H1), (parsear_archivo_missing _ _ _ Hres).
Qed.

Lemma omap_ext_Forall {A B} (f g : A -> option B) l :
  Forall (fun x => f x = g x) l -> omap f l = omap g l.
Proof.
  induction 1 as [|x l Hx _ IH]; [done|]. cbn [omap list_omap].
  fold (omap f l) (omap g l). by rewrite Hx, IH.
Qed.

(** X14: [init_directorios] does not disturb the invoices that wait: with the
    pending directory in place, the batch returns the same records after
    the call as before. *)
Theorem init_keeps_pending_invoices (w w' : world) :
  is_dir (resolve DIR_PENDIENTES (fs w)) = true ->
  init_directorios w = (Ok tt, w') ->
  fst (procesar_cfdis_pendientes w') = fst (procesar_cfdis_pendientes w).
Proof.
  intros Hdir H. rewrite init_directorios_run in H.
  destruct (mkdir_p DIR_PROCESADAS (fs w)) as [c|n1] eqn:H1; [discriminate|].
  assert (Hsame : forall k : Path, resolve (DIR_PENDIENTES ++ k)%list n1
                                   = resolve (DIR_PENDIENTES ++ k)%list (fs w)).
  { intros k. apply (mkdir_p_other _ _ _ _ H1), pendientes_not_prefix_procesadas. }
  assert (Hdir1 : is_dir (resolve DIR_PENDIENTES n1) = true).
  { specialize (Hsame []). rewrite app_nil_r in Hsame. by rewrite Hsame. }
  rewrite (mkdir_p_noop _ _ Hdir1) in H. simplify_eq.
  rewrite !procesar_cfdis_pendientes_value. cbn [fs]. f_equal.
  assert (Hx : xml_files DIR_PENDIENTES n1 = xml_files DIR_PENDIENTES (fs w)).
  { unfold xml_files. specialize (Hsame []). rewrite app_nil_r in Hsame.
    by rewrite Hsame. }
  rewrite Hx. apply omap_ext_Forall, List.Forall_forall. intros archivo Hin.
  apply list_elem_of_In, elem_of_xml_files in Hin as (name & -> & _).
  apply parse_value_resolve. cbn [fs]. apply Hsame.
Qed.

(** ** Further properties of the summary and of date coercion *)

Lemma resumen_lookup_folio_completo c :
  obtener_resumen_cfdi c !! "folio_completo"
  = Some (if truthy_str (serie c)
          then Some (fstr (serie c) ++ "-" ++ fstr (folio c))
          else folio c).
Proof. unfold obtener_resumen_cfdi. apply lookup_insert_eq. Qed.

Lemma resumen_lookup_emisor c :
  obtener_resumen_cfdi c !! "emisor" = Some (py_or (emisor_nombre c) (emisor_rfc c)).
Proof.
  unfold obtener_resumen_cfdi. rewrite !lookup_insert_ne by done. apply lookup_insert_eq.
Qed.

(** X15: the labels of the summary. With a non-empty series the folio label is
    never null: it is series, hyphen, folio, and for a null folio it
    reads [None] after the hyphen; without a series, or with an empty
    one, it is the folio as it is. The issuer's label is the legal name
    unless that is missing or empty; then it is the tax id. *)
Theorem resumen_labels (c : CFDIData) :
  (forall s f, serie c = Some s -> s <> "" -> folio c = Some f ->
     obtener_resumen_cfdi c !! "folio_completo" = Some (Some (s ++ "-" ++ f))) /\
  (forall s, serie c = Some s -> s <> "" -> folio c = None ->
     obtener_resumen_cfdi c !! "folio_completo" = Some (Some (s ++ "-None"))) /\
  (serie c = None \/ serie c = Some "" ->
     obtener_resumen_cfdi c !! "folio_completo" = Some (folio c)) /\
  (forall n, emisor_nombre c = Some n -> n <> "" ->
     obtener_resumen_cfdi c !! "emisor" = Some (Some n)) /\
  (emisor_nombre c = None \/ emisor_nombre c = Some "" ->
     obtener_resumen_cfdi c !! "emisor" = Some (emisor_rfc c)).
Proof.
  rewrite resumen_lookup_folio_completo, resumen_lookup_emisor.
  split; [|split; [|split; [|split]]].
  - intros s f -> Hs ->. by rewrite (truthy_str_Some s Hs).
  - intros s -> Hs ->. by rewrite (truthy_str_Some s Hs).
  - by intros [-> | ->].
  - intros n -> Hn. unfold py_or. by rewrite (truthy_str_Some n Hn).
  - by intros [-> | ->].
Qed.

Lemma all_chars_string_of_uint u : all_chars is_digit (NilEmpty.string_of_uint u) = true.
Proof. unfold all_chars. induction u; simpl; auto. Qed.

Lemma Forall_commas_rev k l :
  Forall (fun c => digit_or_comma c = true) l ->
  Forall (fun c => digit_or_comma c = true) (commas_rev k l).
Proof.
  intros H. revert k. induction H as [|c l Hc _ IH]; intros k; simpl; [constructor|].
  destruct k as [|[|[|[|k]]]]; repeat constructor; auto.
Qed.

Lemma all_chars_group_thousands s :
  all_chars is_digit s = true -> all_chars digit_or_comma (group_thousands s) = true.
Proof.
  unfold all_chars, group_thousands. intros H.
  rewrite list_ascii_of_string_of_list_ascii.
  rewrite List.forallb_forall in H. apply List.forallb_forall.
  assert (HF : Forall (fun c => digit_or_comma c = true)
                      (commas_rev 0 (rev (list_ascii_of_string s)))).
  { apply Forall_commas_rev, List.Forall_forall. intros c Hc.
    apply List.in_rev in Hc. unfold digit_or_comma. by rewrite (H c Hc). }
  rewrite List.Forall_forall in HF. intros c Hc. apply HF. by apply List.in_rev.
Qed.

Lemma pad2_two_digits z :
  0 <= z < 100 -> all_chars is_digit (pad2 z) = true /\ String.length (pad2 z) = 2%nat.
Proof.
  intros Hz.
  assert (Hall : forallb (fun n => all_chars is_digit (pad2 (Z.of_nat n))
                                   && Nat.eqb (String.length (pad2 (Z.of_nat n))) 2)
                         (seq 0 100) = true) by (by vm_compute).
  rewrite List.forallb_forall in Hall.
  specialize (Hall (Z.to_nat z)). rewrite Z2Nat.id in Hall by lia.
  destruct (andb_prop _ _ (Hall ltac:(apply List.in_seq; lia))) as [H1 H2].
  by apply Nat.eqb_eq in H2.
Qed.

Lemma round_half_even_nonneg num den : 0 <= num -> 0 < den -> 0 <= round_half_even num den.
Proof.
  intros Hn Hd. unfold round_half_even.
  assert (0 <= num / den) by (apply Z.div_pos; lia).
  repeat match goal with |- context [if ?b then _ else _] => destruct b end; lia.
Qed.

Lemma cents_nonneg m e : 0 <= cents m e.
Proof.
  unfold cents. destruct (0 <=? e) eqn:He.
  - apply Z.leb_le in He. assert (0 < 2 ^ e) by (apply Z.pow_pos_nonneg; lia). nia.
  - apply Z.leb_gt in He. apply round_half_even_nonneg; [lia|].
    apply Z.pow_pos_nonneg; lia.
Qed.

(** X16: for a total that is a finite number other than zero, and a record
    with a currency, the ['total'] entry is a dollar sign, a minus sign
    for a negative total, digits with commas, a point, exactly two
    digits, a space and the currency code. *)
Theorem resumen_total_pattern (c : CFDIData) (s : bool) (m : positive) (e : Z)
    (cur : string) :
  total c = Some (S754_finite s m e) ->
  moneda c = Some cur ->
  exists int frac,
    obtener_resumen_cfdi c !! "total"
    = Some (Some ("$" ++ sign_str s ++ int ++ "." ++ frac ++ " " ++ cur)) /\
    all_chars digit_or_comma int = true /\
    all_chars is_digit frac = true /\
    String.length frac = 2%nat.
Proof.
  intros Ht Hm. rewrite resumen_total_lookup. unfold resumen_total.
  rewrite Ht, Hm. cbn [truthy_float format_comma_2f fstr default].
  exists (group_thousands (digits_of_Z (cents m e / 100))), (pad2 (cents m e mod 100)).
  split.
  - unfold fixed2. by rewrite !string_app_assoc.
  - split; [apply all_chars_group_thousands, all_chars_string_of_uint|].
    apply pad2_two_digits. apply Z.mod_pos_bound. lia.
Qed.

(** X17: exchanging the two middle formats does not change what date coercion
    returns nor what it prints, for a string that the space-separated and
    the fractional format do not both accept. *)
Theorem convertir_fecha_order_irrelevant (s : string) (w : world) :
  strptime s "%Y-%m-%d %H:%M:%S" = None \/ strptime s "%Y-%m-%dT%H:%M:%S.%f" = None ->
  fst (_convertir_fecha (Some s) w) = fst (convertir_fecha_orden_spec (Some s) w) /\
  stdout (snd (_convertir_fecha (Some s) w))
  = stdout (snd (convertir_fecha_orden_spec (Some s) w)).
Proof.
  intros Hex. unfold _convertir_fecha, convertir_fecha_orden_spec.
  destruct (String.eqb s ""); [done|].
  rewrite !probar_formatos_run. unfold formatos, formatos_orden_spec.
  cbn [first_some fst snd stdout emit].
  destruct (strptime s "%Y-%m-%dT%H:%M:%S"); [done|].
  destruct Hex as [-> | ->].
  - by destruct (strptime s "%Y-%m-%dT%H:%M:%S.%f").
  - by destruct (strptime s "%Y-%m-%d %H:%M:%S").
Qed.

(** ** Further properties: namespaces, dates, and the summary of a record *)

Lemma until_brace_append a b : until_brace (a ++ "}" ++ b) <> None.
Proof.
  induction a as [|c a IH].
  - discriminate.
  - rewrite append_cons. cbn [until_brace].
    destruct (Ascii.eqb c "}"); [discriminate|].
    destruct (until_brace (a ++ "}" ++ b)); [discriminate|done].
Qed.

Lemma child_unqualified e uri local :
  Forall (fun c => namespace_of (tag c) = None) (children e) ->
  child e uri local = None.
Proof.
  intros H. unfold child. apply find_none_Forall.
  eapply List.Forall_impl; [|exact H]. intros c Hc E. cbv beta in Hc. rewrite E in Hc.
  unfold clark in Hc. change ("{" ++ uri ++ "}" ++ local) with
    (String "{" (uri ++ "}" ++ local)) in Hc.
  cbn [namespace_of] in Hc. rewrite Ascii.eqb_refl in Hc.
  by apply until_brace_append in Hc.
Qed.

(** X18: the issuer and the recipient are searched by namespace-qualified tag
    in both versions: in a document whose children carry no namespace,
    which is parsed through the [Version] fallback, none is found and
    their fields are null. *)
Theorem unqualified_children_not_found (ruta : Path) (w : world) (root : Element)
    (r : CFDIData) (w' : world) :
  resolve ruta (fs w) = Some (File (WellFormed root)) ->
  Forall (fun c => namespace_of (tag c) = None) (children root) ->
  parsear_cfdi ruta w = (Ok (Some r), w') ->
  emisor_rfc r = None /\ emisor_nombre r = None /\ emisor_regimen r = None /\
  receptor_rfc r = None /\ receptor_nombre r = None.
Proof.
  intros Hres Hun H. apply parsear_archivo_Some_inv in H as (root' & Hres' & Hd).
  rewrite Hres in Hres'. simplify_eq.
  apply dispatch_inv in Hd as [[_ Hd]|[_ Hd]].
  - apply returns_emisor_v4 in Hd as (-> & -> & -> & -> & ->).
    by rewrite !(child_unqualified _ _ _ Hun).
  - pose proof (returns_regimen_v3 _ _ _ _ _ _ Hd) as ->.
    apply returns__parsear_cfdi_v3 in Hd
      as (_ & _ & _ & _ & _ & _ & _ & _ & -> & -> & -> & ->).
    by rewrite !(child_unqualified _ _ _ Hun).
Qed.

(** What a field mapping prints: the diagnostic of the issue date, then
    the diagnostic of the stamping date. *)
Lemma stdout__parsear_cfdi_v4 root archivo w :
  stdout (snd (_parsear_cfdi_v4 CFDIParser_init root archivo w))
  = (stdout w ++ fecha_salida (get root "Fecha")
      ++ match timbre root with
         | Some c => fecha_salida (get c "FechaTimbrado")
         | None => []
         end)%list.
Proof.
  unfold_mapping. cbv zeta. rewrite lookup_cfdi, lookup_tfd. unfold timbre.
  run_mapping; cbn [snd stdout emit]; by rewrite <- ?app_assoc, ?app_nil_r.
Qed.

Lemma stdout__parsear_cfdi_v3 root archivo w :
  stdout (snd (_parsear_cfdi_v3 CFDIParser_init root archivo w))
  = (stdout w ++ fecha_salida (py_or (get root "fecha") (get root "Fecha"))
      ++ match timbre root with
         | Some c => fecha_salida (get c "FechaTimbrado")
         | None => []
         end)%list.
Proof.
  unfold_mapping. cbv zeta. rewrite lookup_ns_v3, lookup_tfd. unfold timbre.
  run_mapping; cbn [snd stdout emit]; by rewrite <- ?app_assoc, ?app_nil_r.
Qed.

(** X19: a date that no format accepts costs the record its issue date and
    nothing else: the record is returned, with a null issue date, and the
    first line printed is the diagnostic naming the text. *)
Theorem date_field_partial_success (ruta : Path) (w : world) (root : Element) (s : string) :
  resolve ruta (fs w) = Some (File (WellFormed root)) ->
  _detectar_version root = "4.0" \/ _detectar_version root = "3.3" ->
  fecha_attr root = Some s -> s <> "" ->
  Forall (fun f => strptime s f = None)
         [ "%Y-%m-%dT%H:%M:%S"; "%Y-%m-%d %H:%M:%S"; "%Y-%m-%dT%H:%M:%S.%f"; "%Y-%m-%d" ] ->
  exists r w' rest,
    parsear_cfdi ruta w = (Ok (Some r), w') /\
    fecha_emision r = None /\
    stdout w' = (stdout w ++ ("No se pudo convertir la fecha: " ++ s)%string :: rest)%list.
Proof.
  intros Hres Hv Hf Hs Hall.
  assert (Hval : fecha_valor (Some s) = None).
  { unfold fecha_valor. rewrite (truthy_str_Some s Hs). cbn [default].
    by apply first_some_none. }
  assert (Hout : fecha_salida (Some s) = ["No se pudo convertir la fecha: " ++ s]).
  { unfold fecha_salida. rewrite (truthy_str_Some s Hs).
    change (default "" (Some s)) with s.
    pose proof (first_some_none (strptime s) _ Hall) as Hn.
    change (first_some (strptime s) formatos = None) in Hn. by rewrite Hn. }
  unfold parsear_cfdi. rewrite (parsear_archivo_root _ _ _ _ Hres).
  unfold fecha_attr in Hf. unfold dispatch, try_except, bind.
  destruct Hv as [Hv|Hv]; rewrite Hv in Hf |- *; cbn [String.eqb Ascii.eqb Bool.eqb] in Hf |- *.
  - pose proof (stdout__parsear_cfdi_v4 root ruta w) as Hso.
    destruct (never_raises__parsear_cfdi_v4 root ruta w) as (r & w' & Hr).
    rewrite Hr in Hso |- *. cbn [snd] in Hso.
    eexists r, w', _. split; [reflexivity|]. split.
    + apply returns__parsear_cfdi_v4 in Hr as (_ & _ & _ & _ & _ & _ & _ & ->).
      by rewrite Hf.
    + rewrite Hso, Hf, Hout. reflexivity.
  - pose proof (stdout__parsear_cfdi_v3 root ruta w) as Hso.
    destruct (never_raises__parsear_cfdi_v3 root ruta w) as (r & w' & Hr).
    rewrite Hr in Hso |- *. cbn [snd] in Hso.
    eexists r, w', _. split; [reflexivity|]. split.
    + apply returns__parsear_cfdi_v3 in Hr as (_ & _ & _ & _ & _ & _ & _ & -> & _).
      by rewrite Hf.
    + rewrite Hso, Hf, Hout. reflexivity.
Qed.

Lemma record_names_file_and_currency_aux self ruta w r w' :
  parsear_archivo self ruta w = (Ok (Some r), w') ->
  archivo_origen r = Some (path_name ruta) /\
  exists root,
    resolve ruta (fs w) = Some (File (WellFormed root)) /\
    moneda r = Some (default "MXN" (attrib root !! "Moneda")).
Proof.
  intros H. apply parsear_archivo_Some_inv in H as (root & Hres & Hd).
  apply dispatch_inv in Hd as [[_ Hd]|[_ Hd]].
  - apply returns__parsear_cfdi_v4 in Hd as (_ & Ha & _ & _ & _ & _ & Hm & _). eauto.
  - apply returns__parsear_cfdi_v3 in Hd as (_ & Ha & _ & _ & _ & _ & Hm & _). eauto.
Qed.

Lemma stamp_aux ruta w root r w' :
  resolve ruta (fs w) = Some (File (WellFormed root)) ->
  parsear_cfdi ruta w = (Ok (Some r), w') ->
  uuid r = timbre root ≫= (fun c => get c "UUID").
Proof.
  intros Hres H. apply parsear_archivo_Some_inv in H as (root' & Hres' & Hd).
  rewrite Hres in Hres'. simplify_eq.
  apply dispatch_inv in Hd as [[_ Hd]|[_ Hd]].
  - by apply returns_timbre_v4 in Hd as [? _].
  - by apply returns_timbre_v3 in Hd as [? _].
Qed.

Lemma substring_append_r (a b : string) :
  substring (String.length a) (String.length b) (a ++ b) = b.
Proof.
  induction a as [|c a IH].
  - change (substring 0 (String.length b) b = b).
    induction b as [|c b IH]; [done|]. cbn [String.length substring]. by rewrite IH.
  - rewrite append_cons. cbn [String.length substring]. exact IH.
Qed.

Lemma length_append (a b : string) :
  String.length (a ++ b) = (String.length a + String.length b)%nat.
Proof.
  induction a as [|c a IH]; [done|]. rewrite append_cons. cbn [String.length].
  by rewrite IH.
Qed.

Lemma endswith_append (a b : string) : endswith (a ++ b) b = true.
Proof.
  unfold endswith. rewrite length_append.
  replace (String.length a + String.length b - String.length b)%nat
    with (String.length a) by lia.
  rewrite substring_append_r, String.eqb_refl.
  rewrite andb_true_r. apply Nat.leb_le. lia.
Qed.

Lemma resumen_lookup_archivo c :
  obtener_resumen_cfdi c !! "archivo" = Some (archivo_origen c).
Proof.
  unfold obtener_resumen_cfdi. rewrite !lookup_insert_ne by done. apply lookup_insert_eq.
Qed.

Lemma resumen_lookup_uuid c : obtener_resumen_cfdi c !! "uuid" = Some (uuid c).
Proof.
  unfold obtener_resumen_cfdi. rewrite !lookup_insert_ne by done. apply lookup_insert_eq.
Qed.

(** X20: the summary of a record that the extractor returned names the file
    by its last path component, shows the [UUID] of the document's stamp,
    and its total, when there is one, ends with the document's currency,
    MXN when the document has none. *)
Theorem summary_of_parsed_record (ruta : Path) (w : world) (root : Element)
    (r : CFDIData) (w' : world) :
  resolve ruta (fs w) = Some (File (WellFormed root)) ->
  parsear_cfdi ruta w = (Ok (Some r), w') ->
  obtener_resumen_cfdi r !! "archivo" = Some (Some (path_name ruta)) /\
  obtener_resumen_cfdi r !! "uuid" = Some (timbre root ≫= (fun c => get c "UUID")) /\
  (forall t, obtener_resumen_cfdi r !! "total" = Some (Some t) ->
             endswith t (" " ++ default "MXN" (attrib root !! "Moneda")) = true).
Proof.
  intros Hres H.
  pose proof (record_names_file_and_currency_aux _ _ _ _ _ H) as (Ha & root' & Hres' & Hm).
  rewrite Hres in Hres'. simplify_eq.
  pose proof (stamp_aux _ _ _ _ _ Hres H) as Hu.
  rewrite resumen_lookup_archivo, resumen_lookup_uuid, resumen_total_lookup, Ha, Hu.
  split; [done|]. split; [done|].
  intros t Ht. unfold resumen_total in Ht. rewrite Hm in Ht.
  destruct (total r) as [x|]; [|discriminate].
  destruct (truthy_float x); [|discriminate].
  simplify_eq.
  change (endswith ("$" ++ format_comma_2f x ++ " "
                    ++ default "MXN" (attrib root' !! "Moneda"))
                   (" " ++ default "MXN" (attrib root' !! "Moneda")) = true).
  rewrite <- (string_app_assoc "$"). apply endswith_append.
Qed.

End Extractor.

(** ** The statements at concrete inputs *)

Lemma convertir_fecha_first_success_witness :
  _convertir_fecha strptime_ascii None w_vacio = (Ok None, w_vacio) /\
  _convertir_fecha strptime_ascii (Some "2019-03-02 08:00:00") w_vacio
  = (Ok (Some (mkDatetime 2019 3 2 8 0 0 0)),
     emit w_vacio []
          [ ("2019-03-02 08:00:00", "%Y-%m-%dT%H:%M:%S");
            ("2019-03-02 08:00:00", "%Y-%m-%d %H:%M:%S") ]) /\
  _convertir_fecha strptime_ascii (Some "15/01/2024") w_vacio
  = (Ok None,
     emit w_vacio ["No se pudo convertir la fecha: 15/01/2024"]
          [ ("15/01/2024", "%Y-%m-%dT%H:%M:%S");
            ("15/01/2024", "%Y-%m-%d %H:%M:%S");
            ("15/01/2024", "%Y-%m-%dT%H:%M:%S.%f");
            ("15/01/2024", "%Y-%m-%d") ]).
Proof.
  destruct (convertir_fecha_first_success strptime_ascii None w_vacio) as (H1 & _ & _).
  destruct (convertir_fecha_first_success strptime_ascii
              (Some "2019-03-02 08:00:00") w_vacio) as (_ & H2 & _).
  destruct (convertir_fecha_first_success strptime_ascii
              (Some "15/01/2024") w_vacio) as (_ & _ & H3).
  split; [apply H1; reflexivity|]. split.
  - apply (H2 "2019-03-02 08:00:00" ["%Y-%m-%dT%H:%M:%S"] "%Y-%m-%d %H:%M:%S"
              ["%Y-%m-%dT%H:%M:%S.%f"; "%Y-%m-%d"] (mkDatetime 2019 3 2 8 0 0 0)).
    + reflexivity.
    + discriminate.
    + reflexivity.
    + repeat constructor.
    + reflexivity.
  - apply (H3 "15/01/2024").
    + reflexivity.
    + discriminate.
    + repeat constructor.
Defined.

(** On a date in no accepted format the code tries the space-separated
    format second and the fractional one third; date coercion in the
    order the specification lists makes the calls in another order. *)
Lemma convertir_fecha_order_counterexample :
  _convertir_fecha strptime_ascii (Some "15/01/2024") w_vacio
  <> convertir_fecha_orden_spec strptime_ascii (Some "15/01/2024") w_vacio.
Proof. intros H. vm_compute in H. discriminate H. Qed.

Lemma detectar_version_by_namespace_witness :
  _detectar_version doc_v4_total_abc = "4.0" /\
  _detectar_version doc_v3_pascal = "3.3" /\
  _detectar_version doc_sin_namespace = "3.3" /\
  exists r w',
    parsear_cfdi strptime_ascii float_decimal
      ["app"; "data"; "facturas_pendientes"; "z.xml"] w_ejemplo = (Ok (Some r), w')
    /\ version r = Some "3.3".
Proof.
  destruct (detectar_version_by_namespace strptime_ascii float_decimal doc_v4_total_abc)
    as (H1 & _).
  destruct (detectar_version_by_namespace strptime_ascii float_decimal doc_v3_pascal)
    as (_ & H2 & _).
  destruct (detectar_version_by_namespace strptime_ascii float_decimal doc_sin_namespace)
    as (_ & _ & H3 & H4).
  split; [apply H1; reflexivity|].
  split; [apply H2; [discriminate|reflexivity]|].
  split; [apply H3; discriminate|].
  apply H4; [reflexivity|discriminate|discriminate|reflexivity].
Defined.

Lemma parse_version_supported_witness :
  (exists r w',
     parsear_archivo strptime_ascii float_decimal CFDIParser_init
       ["app"; "data"; "facturas_pendientes"; "a.xml"] w_ejemplo = (Ok (Some r), w')
     /\ (version r = Some "4.0" \/ version r = Some "3.3")) /\
  fst (parsear_archivo strptime_ascii float_decimal CFDIParser_init
         ["app"; "data"; "facturas_pendientes"; "v2.xml"] w_ejemplo) = Ok None.
Proof.
  split.
  - destruct (parse_version_supported strptime_ascii float_decimal CFDIParser_init
                ["app"; "data"; "facturas_pendientes"; "a.xml"] w_ejemplo) as (H & _).
    destruct (parsear_archivo strptime_ascii float_decimal CFDIParser_init
                ["app"; "data"; "facturas_pendientes"; "a.xml"] w_ejemplo)
      as [[[r|]|e] w'] eqn:Hrun; [|discriminate Hrun..].
    exists r, w'. split; [reflexivity|]. exact (proj1 (H r w' eq_refl)).
  - destruct (parse_version_supported strptime_ascii float_decimal CFDIParser_init
                ["app"; "data"; "facturas_pendientes"; "v2.xml"] w_ejemplo) as (_ & H).
    apply (H doc_version_2); [reflexivity|discriminate|discriminate].
Defined.

Lemma parse_absorbs_failures_witness :
  parsear_archivo strptime_ascii float_decimal CFDIParser_init
    ["app"; "data"; "facturas_pendientes"; "no.xml"] w_ejemplo
  = (Ok None,
     emit w_ejemplo
       ["Error al parsear CFDI /app/data/facturas_pendientes/no.xml: Archivo no encontrado: /app/data/facturas_pendientes/no.xml"]
       []) /\
  parsear_archivo strptime_ascii float_decimal CFDIParser_init
    ["app"; "data"; "facturas_pendientes"; "roto.xml"] w_ejemplo
  = (Ok None,
     emit w_ejemplo
       ["Error al parsear CFDI /app/data/facturas_pendientes/roto.xml: no element found: line 1, column 0"]
       []) /\
  parsear_archivo strptime_ascii float_decimal CFDIParser_init
    ["app"; "data"; "facturas_pendientes"; "v2.xml"] w_ejemplo
  = (Ok None,
     emit w_ejemplo
       ["Error al parsear CFDI /app/data/facturas_pendientes/v2.xml: Versión de CFDI no soportada: 2.0"]
       []).
Proof.
  split; [|split].
  - destruct (parse_absorbs_failures strptime_ascii float_decimal FILE_ejemplo
                CFDIParser_init ["app"; "data"; "facturas_pendientes"; "no.xml"] w_ejemplo)
      as (_ & H & _).
    apply H. reflexivity.
  - destruct (parse_absorbs_failures strptime_ascii float_decimal FILE_ejemplo
                CFDIParser_init ["app"; "data"; "facturas_pendientes"; "roto.xml"] w_ejemplo)
      as (_ & _ & H & _).
    apply (H "no element found: line 1, column 0"). reflexivity.
  - destruct (parse_absorbs_failures strptime_ascii float_decimal FILE_ejemplo
                CFDIParser_init ["app"; "data"; "facturas_pendientes"; "v2.xml"] w_ejemplo)
      as (_ & _ & _ & H & _).
    apply (H doc_version_2); [reflexivity|discriminate|discriminate].
Defined.


Lemma procesar_pendientes_collects_witness :
  procesar_cfdis_pendientes strptime_ascii float_decimal FILE_ejemplo w_vacio
  = (Ok [], w_vacio).
Proof.
  destruct (procesar_pendientes_collects strptime_ascii float_decimal FILE_ejemplo w_vacio)
    as (H & _).
  apply H. reflexivity.
Defined.


Lemma v3_case_fallback_witness :
  (v3_pascal_read doc_v3_pascal = true /\
   _parsear_cfdi_v3 strptime_ascii float_decimal CFDIParser_init
     (lower_doc case_pairs doc_v3_pascal) ["f.xml"] w_vacio
   = _parsear_cfdi_v3 strptime_ascii float_decimal CFDIParser_init
       doc_v3_pascal ["f.xml"] w_vacio) /\
  (v3_pascal_read doc_v3_vacios = true /\
   _parsear_cfdi_v3 strptime_ascii float_decimal CFDIParser_init
     (lower_doc case_pairs doc_v3_vacios) ["f.xml"] w_vacio
   = _parsear_cfdi_v3 strptime_ascii float_decimal CFDIParser_init
       doc_v3_vacios ["f.xml"] w_vacio).
Proof.
  destruct (v3_case_fallback strptime_ascii float_decimal CFDIParser_init
              doc_v3_pascal ["f.xml"] w_vacio) as (_ & H1).
  destruct (v3_case_fallback strptime_ascii float_decimal CFDIParser_init
              doc_v3_vacios ["f.xml"] w_vacio) as (_ & H2).
  split.
  - split; [vm_compute; reflexivity|]. apply H1. vm_compute. reflexivity.
  - split; [vm_compute; reflexivity|]. apply H2. vm_compute. reflexivity.
Defined.

(** Documents that spell every attribute in PascalCase only, and whose
    lowercase-initial equivalents map to another record. With the currency
    renamed as well, the lowercase-initial document loses its currency:
    version 3.3 reads [Moneda] and not [moneda]. With an empty folio,
    series, issuer's rfc or recipient's name, the PascalCase document has
    the empty string in the field and the lowercase-initial one has
    none. *)
Lemma v3_lowercase_counterexample :
  (pascal_only_doc case_pairs_moneda doc_v3_usd = true /\
   _parsear_cfdi_v3 strptime_ascii float_decimal CFDIParser_init
     (lower_doc case_pairs_moneda doc_v3_usd) ["f.xml"] w_vacio
   <> _parsear_cfdi_v3 strptime_ascii float_decimal CFDIParser_init
        doc_v3_usd ["f.xml"] w_vacio) /\
  (pascal_only_doc case_pairs_moneda doc_v3_folio_vacio = true /\
   _parsear_cfdi_v3 strptime_ascii float_decimal CFDIParser_init
     (lower_doc case_pairs doc_v3_folio_vacio) ["f.xml"] w_vacio
   <> _parsear_cfdi_v3 strptime_ascii float_decimal CFDIParser_init
        doc_v3_folio_vacio ["f.xml"] w_vacio) /\
  (pascal_only_doc case_pairs_moneda doc_v3_serie_vacia = true /\
   _parsear_cfdi_v3 strptime_ascii float_decimal CFDIParser_init
     (lower_doc case_pairs doc_v3_serie_vacia) ["f.xml"] w_vacio
   <> _parsear_cfdi_v3 strptime_ascii float_decimal CFDIParser_init
        doc_v3_serie_vacia ["f.xml"] w_vacio) /\
  (pascal_only_doc case_pairs_moneda doc_v3_rfc_vacio = true /\
   _parsear_cfdi_v3 strptime_ascii float_decimal CFDIParser_init
     (lower_doc case_pairs doc_v3_rfc_vacio) ["f.xml"] w_vacio
   <> _parsear_cfdi_v3 strptime_ascii float_decimal CFDIParser_init
        doc_v3_rfc_vacio ["f.xml"] w_vacio) /\
  (pascal_only_doc case_pairs_moneda doc_v3_nombre_vacio = true /\
   _parsear_cfdi_v3 strptime_ascii float_decimal CFDIParser_init
     (lower_doc case_pairs doc_v3_nombre_vacio) ["f.xml"] w_vacio
   <> _parsear_cfdi_v3 strptime_ascii float_decimal CFDIParser_init
        doc_v3_nombre_vacio ["f.xml"] w_vacio).
Proof.
  repeat split; try (vm_compute; reflexivity);
    intros H; vm_compute in H; discriminate H.
Qed.

(** ** The further properties at concrete inputs *)

Lemma stamp_from_first_descendant_witness :
  exists r w',
    parsear_cfdi strptime_ascii float_decimal
      ["app"; "data"; "facturas_pendientes"; "a.xml"] w_ejemplo = (Ok (Some r), w')
    /\ uuid r = Some "6F9619FF-8B86-D011-B42D-00CF4FC964FF"
    /\ fecha_timbrado r = Some (mkDatetime 2024 1 15 10 31 7 0).
Proof.
  destruct (parsear_cfdi strptime_ascii float_decimal
              ["app"; "data"; "facturas_pendientes"; "a.xml"] w_ejemplo)
    as [[[r|]|e] w'] eqn:Hrun; [|discriminate Hrun..].
  exists r, w'. split; [reflexivity|].
  destruct (stamp_from_first_descendant strptime_ascii float_decimal
              ["app"; "data"; "facturas_pendientes"; "a.xml"] w_ejemplo
              doc_v4_total_abc r w' eq_refl Hrun) as (Hu & Hf & _).
  split; [exact Hu|exact Hf].
Defined.

Lemma v4_field_mapping_witness :
  exists r w',
    parsear_cfdi strptime_ascii float_decimal
      ["app"; "data"; "facturas_pendientes"; "a.xml"] w_ejemplo = (Ok (Some r), w')
    /\ folio r = Some "12" /\ emisor_nombre r = Some "ACME" /\ receptor_rfc r = None.
Proof.
  destruct (parsear_cfdi strptime_ascii float_decimal
              ["app"; "data"; "facturas_pendientes"; "a.xml"] w_ejemplo)
    as [[[r|]|e] w'] eqn:Hrun; [|discriminate Hrun..].
  exists r, w'. split; [reflexivity|].
  destruct (v4_field_mapping strptime_ascii float_decimal
              ["app"; "data"; "facturas_pendientes"; "a.xml"] w_ejemplo
              doc_v4_total_abc r w' eq_refl eq_refl Hrun)
    as (Hf & _ & _ & _ & _ & _ & _ & Hn & _ & Hr & _).
  split; [exact Hf|]. split; [exact Hn|exact Hr].
Defined.

Lemma v4_ignores_other_attributes_witness :
  _parsear_cfdi_v4 strptime_ascii float_decimal CFDIParser_init
    (with_attr "folio" "99" doc_v4_total_abc) ["a.xml"] w_vacio
  = _parsear_cfdi_v4 strptime_ascii float_decimal CFDIParser_init
      doc_v4_total_abc ["a.xml"] w_vacio.
Proof.
  apply (v4_ignores_other_attributes strptime_ascii float_decimal).
  apply (bool_decide_eq_false_1 _). reflexivity.
Defined.

Lemma v3_has_no_regimen_witness :
  exists r w',
    parsear_archivo strptime_ascii float_decimal CFDIParser_init
      ["app"; "data"; "facturas_pendientes"; "z.xml"] w_ejemplo = (Ok (Some r), w')
    /\ emisor_regimen r = None.
Proof.
  destruct (parsear_archivo strptime_ascii float_decimal CFDIParser_init
              ["app"; "data"; "facturas_pendientes"; "z.xml"] w_ejemplo)
    as [[[r|]|e] w'] eqn:Hrun; [|discriminate Hrun..].
  exists r, w'. split; [reflexivity|].
  apply (v3_has_no_regimen strptime_ascii float_decimal CFDIParser_init
           ["app"; "data"; "facturas_pendientes"; "z.xml"] w_ejemplo r w' Hrun).
  vm_compute in Hrun. injection Hrun as <- _. reflexivity.
Defined.

Lemma record_names_file_and_currency_witness :
  exists r w',
    parsear_archivo strptime_ascii float_decimal CFDIParser_init
      ["app"; "data"; "facturas_pendientes"; "a.xml"] w_ejemplo = (Ok (Some r), w')
    /\ archivo_origen r = Some "a.xml".
Proof.
  destruct (parsear_archivo strptime_ascii float_decimal CFDIParser_init
              ["app"; "data"; "facturas_pendientes"; "a.xml"] w_ejemplo)
    as [[[r|]|e] w'] eqn:Hrun; [|discriminate Hrun..].
  exists r, w'. split; [reflexivity|].
  exact (proj1 (record_names_file_and_currency strptime_ascii float_decimal
                  CFDIParser_init _ _ r w' Hrun)).
Defined.

Lemma parse_directory_is_skipped_witness :
  exists line,
    parsear_archivo strptime_ascii float_decimal CFDIParser_init
      ["app"; "data"] w_vacio_data = (Ok None, emit w_vacio_data [line] [])
    /\ startswith line "Error al parsear CFDI /app/data: " = true.
Proof.
  apply (parse_directory_is_skipped strptime_ascii float_decimal CFDIParser_init
           ["app"; "data"] w_vacio_data []).
  reflexivity.
Defined.

Lemma parse_well_formed_succeeds_witness :
  exists r w',
    parsear_cfdi strptime_ascii float_decimal
      ["app"; "data"; "facturas_pendientes"; "z.xml"] w_ejemplo = (Ok (Some r), w').
Proof.
  apply (parse_well_formed_succeeds strptime_ascii float_decimal _ _ doc_sin_namespace).
  - reflexivity.
  - right. reflexivity.
Defined.

Lemma parse_bare_root_witness :
  parsear_cfdi strptime_ascii float_decimal ["vacio.xml"] w_doc_vacio
  = (Ok (Some (mkCFDIData None None None None None (Some "MXN")
                 None None None None None None None (Some "4.0") (Some "vacio.xml"))),
     w_doc_vacio).
Proof.
  apply (parse_bare_root strptime_ascii float_decimal
           (clark NS_CFDI4 "Comprobante") ["vacio.xml"] w_doc_vacio).
  reflexivity.
Defined.

Lemma batch_records_come_from_xml_entries_witness :
  exists l w',
    procesar_cfdis_pendientes strptime_ascii float_decimal FILE_ejemplo w_ejemplo
    = (Ok l, w')
    /\ (length l <= length (xml_files (DIR_PENDIENTES FILE_ejemplo) (fs w_ejemplo)))%nat.
Proof.
  destruct (procesar_cfdis_pendientes strptime_ascii float_decimal FILE_ejemplo w_ejemplo)
    as [[l|e] w'] eqn:Hrun; [|discriminate Hrun].
  exists l, w'. split; [reflexivity|].
  exact (proj2 (batch_records_come_from_xml_entries strptime_ascii float_decimal
                  FILE_ejemplo w_ejemplo l w' Hrun)).
Defined.

Lemma batch_on_regular_file_witness :
  procesar_cfdis_pendientes strptime_ascii float_decimal FILE_ejemplo w_pendientes_archivo
  = (Ok [], w_pendientes_archivo).
Proof.
  apply (batch_on_regular_file strptime_ascii float_decimal FILE_ejemplo
           w_pendientes_archivo (Malformed "x")).
  reflexivity.
Defined.

Lemma init_directorios_blocked_witness :
  (exists e,
     init_directorios FILE_ejemplo w_data_archivo = (Raised e, w_data_archivo) /\
     exn_cls e = NotADirectoryError) /\
  (exists e w',
     init_directorios FILE_ejemplo w_pendientes_archivo = (Raised e, w') /\
     exn_cls e = FileExistsError /\
     is_dir (resolve (DIR_PROCESADAS FILE_ejemplo) (fs w')) = true /\
     resolve (DIR_PENDIENTES FILE_ejemplo) (fs w') = Some (File (Malformed "x"))).
Proof.
  split.
  - destruct (init_directorios_blocked FILE_ejemplo w_data_archivo) as [H _].
    apply (H ["app"; "data"] (Malformed "x")).
    + exists ["facturas_procesadas"]. reflexivity.
    + reflexivity.
  - destruct (init_directorios_blocked FILE_ejemplo w_pendientes_archivo) as [_ H].
    apply (H (Malformed "x")); [reflexivity|].
    intros q c' [k Hk] E.
    change (DIR_PROCESADAS FILE_ejemplo)
      with ["app"; "data"; "facturas_procesadas"] in Hk.
    destruct q as [|a [|b [|d [|x q]]]]; simpl in Hk; simplify_eq;
      vm_compute in E; discriminate E.
Defined.

Lemma batch_after_fresh_init_witness :
  procesar_cfdis_pendientes strptime_ascii float_decimal FILE_ejemplo w_inicializado
  = (Ok [], w_inicializado).
Proof.
  apply (batch_after_fresh_init strptime_ascii float_decimal FILE_ejemplo
           w_vacio w_inicializado); reflexivity.
Defined.

Lemma init_keeps_pending_invoices_witness :
  exists w',
    init_directorios FILE_ejemplo w_ejemplo = (Ok tt, w') /\
    fst (procesar_cfdis_pendientes strptime_ascii float_decimal FILE_ejemplo w')
    = fst (procesar_cfdis_pendientes strptime_ascii float_decimal FILE_ejemplo w_ejemplo).
Proof.
  destruct (init_directorios FILE_ejemplo w_ejemplo) as [[[]|e] w'] eqn:Hrun;
    [|discriminate Hrun].
  exists w'. split; [reflexivity|].
  apply (init_keeps_pending_invoices strptime_ascii float_decimal FILE_ejemplo
           w_ejemplo w'); [reflexivity|exact Hrun].
Defined.

Lemma resumen_labels_witness :
  obtener_resumen_cfdi cfdi_sin_folio !! "folio_completo" = Some (Some "A-None") /\
  obtener_resumen_cfdi cfdi_sin_folio !! "emisor" = Some (Some "AAA010101AAA") /\
  obtener_resumen_cfdi cfdi_total_cero !! "folio_completo" = Some None.
Proof.
  destruct (resumen_labels cfdi_sin_folio) as (_ & H2 & _ & _ & H5).
  destruct (resumen_labels cfdi_total_cero) as (_ & _ & H3 & _).
  split; [apply (H2 "A"); [reflexivity|discriminate|reflexivity]|].
  split; [apply H5; left; reflexivity|].
  apply H3. left. reflexivity.
Defined.

Lemma resumen_total_pattern_witness :
  exists int frac,
    obtener_resumen_cfdi
      (set_total (Some (S754_finite false 5429388417957888 (-42))) cfdi_total_cero)
      !! "total"
    = Some (Some ("$" ++ sign_str false ++ int ++ "." ++ frac ++ " " ++ "MXN")) /\
    all_chars digit_or_comma int = true /\
    all_chars is_digit frac = true /\
    String.length frac = 2%nat.
Proof.
  apply (resumen_total_pattern
           (set_total (Some (S754_finite false 5429388417957888 (-42))) cfdi_total_cero)
           false 5429388417957888 (-42) "MXN"); reflexivity.
Defined.

Lemma convertir_fecha_order_irrelevant_witness :
  fst (_convertir_fecha strptime_ascii (Some "2019-03-02 08:00:00") w_vacio)
  = fst (convertir_fecha_orden_spec strptime_ascii (Some "2019-03-02 08:00:00") w_vacio) /\
  stdout (snd (_convertir_fecha strptime_ascii (Some "2019-03-02 08:00:00") w_vacio))
  = stdout (snd (convertir_fecha_orden_spec strptime_ascii
                   (Some "2019-03-02 08:00:00") w_vacio)).
Proof.
  apply (convertir_fecha_order_irrelevant strptime_ascii "2019-03-02 08:00:00" w_vacio).
  right. reflexivity.
Defined.

Lemma unqualified_children_not_found_witness :
  exists r w',
    parsear_cfdi strptime_ascii float_decimal ["plano.xml"] w_otros = (Ok (Some r), w')
    /\ emisor_rfc r = None /\ folio r = Some "5".
Proof.
  destruct (parsear_cfdi strptime_ascii float_decimal ["plano.xml"] w_otros)
    as [[[r|]|e] w'] eqn:Hrun; [|discriminate Hrun..].
  exists r, w'. split; [reflexivity|]. split.
  - refine (proj1 (unqualified_children_not_found strptime_ascii float_decimal
                     ["plano.xml"] w_otros doc_plano r w' eq_refl _ Hrun)).
    repeat constructor.
  - vm_compute in Hrun. injection Hrun as <- _. reflexivity.
Defined.

Lemma date_field_partial_success_witness :
  exists r w' rest,
    parsear_cfdi strptime_ascii float_decimal ["fecha.xml"] w_otros = (Ok (Some r), w')
    /\ fecha_emision r = None
    /\ stdout w' = (stdout w_otros ++ "No se pudo convertir la fecha: 15/01/2024" :: rest)%list.
Proof.
  apply (date_field_partial_success strptime_ascii float_decimal
           ["fecha.xml"] w_otros doc_v4_fecha_mala "15/01/2024").
  - reflexivity.
  - left. reflexivity.
  - reflexivity.
  - discriminate.
  - repeat constructor.
Defined.

Lemma summary_of_parsed_record_witness :
  exists r w',
    parsear_cfdi strptime_ascii float_decimal ["plano.xml"] w_otros = (Ok (Some r), w')
    /\ obtener_resumen_cfdi r !! "archivo" = Some (Some "plano.xml")
    /\ obtener_resumen_cfdi r !! "uuid"
       = Some (Some "6F9619FF-8B86-D011-B42D-00CF4FC964FF").
Proof.
  destruct (parsear_cfdi strptime_ascii float_decimal ["plano.xml"] w_otros)
    as [[[r|]|e] w'] eqn:Hrun; [|discriminate Hrun..].
  exists r, w'. split; [reflexivity|].
  destruct (summary_of_parsed_record strptime_ascii float_decimal
              ["plano.xml"] w_otros doc_plano r w' eq_refl Hrun) as (Ha & Hu & _).
  split; [exact Ha|exact Hu].
Defined.
